(** * A verification model of [connection-manager.py]

    The module defines one class, [ConnectionManager]: a configuration
    (base URL, header mapping, timeout, TLS verification setting) and a
    [requests.Session], with four verb methods that join a path against the
    base URL with [urllib.parse.urljoin] and relay the call to the session.

    The development is a shallow embedding:
    - Python [str] is [string]; the header mapping is a [gmap string pyval]
      living in a store of dict objects, so that two references to one dict
      alias each other as they do in Python;
    - methods are computations in a state-and-exception monad over that
      store;
    - [urllib.parse.urljoin] (CPython 3.11, [Lib/urllib/parse.py]) is
      transcribed function by function;
    - the transport behind [requests.Session] and the two deep library
      calls of [urllib.parse] ([ipaddress]/[re] host validation,
      [unicodedata.normalize]) are variables of the model. *)

From Stdlib Require Import String Ascii ZArith List Bool Lia.
From stdpp Require Import base option gmap strings list fin_maps.

Local Open Scope string_scope.
Local Open Scope list_scope.

(* ===================================================================== *)
(** ** Exceptions and outcomes *)
(* ===================================================================== *)

(** A raised Python exception: the name of its class, whether that class
    derives from [Exception] (and not only from [BaseException]), the text
    [str(e)], and the exception that was being handled when it was raised
    ([__context__]). *)
#[warnings="-register-all"]
Inductive exc : Type :=
  mk_exc {
    exc_class : string;
    exc_is_Exception : bool;
    exc_str : string;
    exc_context : option exc
  }.

Definition ValueError (msg : string) : exc := mk_exc "ValueError" true msg None.

(** The result of running Python code: a value, a raised exception, or
    [Wrong] when the model is asked to follow a reference that names no
    object (which no Python program can do). *)
Inductive outcome (A : Type) : Type :=
| Ret (a : A)
| Raise (e : exc)
| Wrong.
Arguments Ret {A} a.
Arguments Raise {A} e.
Arguments Wrong {A}.

Definition obind {A B} (m : outcome A) (k : A -> outcome B) : outcome B :=
  match m with
  | Ret a => k a
  | Raise e => Raise e
  | Wrong => Wrong
  end.

Notation "'do' x <- m ; k" := (obind m (fun x => k))
  (at level 10, x pattern, m at level 100, k at level 200).

(* ===================================================================== *)
(** ** Python [str] methods used by [urllib.parse] *)
(* ===================================================================== *)

Module PyStr.

(** [c in s] *)
Fixpoint contains (c : ascii) (s : string) : bool :=
  match s with
  | EmptyString => false
  | String a r => Ascii.eqb a c || contains c r
  end.

(** [s.find(c)], with [None] for Python's [-1]. *)
Fixpoint find (c : ascii) (s : string) : option nat :=
  match s with
  | EmptyString => None
  | String a r =>
      if Ascii.eqb a c then Some 0
      else match find c r with
           | Some i => Some (S i)
           | None => None
           end
  end.

(** [s.rfind(c)] *)
Fixpoint rfind (c : ascii) (s : string) : option nat :=
  match s with
  | EmptyString => None
  | String a r =>
      match rfind c r with
      | Some i => Some (S i)
      | None => if Ascii.eqb a c then Some 0 else None
      end
  end.

(** [s[:n]] *)
Fixpoint take (n : nat) (s : string) : string :=
  match n, s with
  | S n', String a r => String a (take n' r)
  | _, _ => EmptyString
  end.

(** [s[n:]] *)
Fixpoint drop (n : nat) (s : string) : string :=
  match n, s with
  | S n', String _ r => drop n' r
  | _, _ => s
  end.

(** [s.find(c, start)] *)
Definition find_from (c : ascii) (start : nat) (s : string) : option nat :=
  match find c (drop start s) with
  | Some i => Some (start + i)
  | None => None
  end.

(** [s.replace(c, "")] for a one-character [c]. *)
Fixpoint remove (c : ascii) (s : string) : string :=
  match s with
  | EmptyString => EmptyString
  | String a r => if Ascii.eqb a c then remove c r else String a (remove c r)
  end.

(** [s.lstrip(chars)], the character set given as a predicate. *)
Fixpoint lstrip (p : ascii -> bool) (s : string) : string :=
  match s with
  | EmptyString => EmptyString
  | String a r => if p a then lstrip p r else s
  end.

(** [s.rstrip(chars)] *)
Fixpoint rstrip (p : ascii -> bool) (s : string) : string :=
  match s with
  | EmptyString => EmptyString
  | String a r =>
      match rstrip p r with
      | EmptyString => if p a then EmptyString else String a EmptyString
      | r' => String a r'
      end
  end.

(** [s.strip(chars)] *)
Definition strip (p : ascii -> bool) (s : string) : string :=
  rstrip p (lstrip p s).

(** [s.split(c)]: never the empty list. *)
Fixpoint split (c : ascii) (s : string) : list string :=
  match s with
  | EmptyString => [EmptyString]
  | String a r =>
      if Ascii.eqb a c then EmptyString :: split c r
      else match split c r with
           | h :: t => String a h :: t
           | [] => [String a EmptyString]
           end
  end.

(** [s.partition(c)]: the part before the first [c], whether [c] was
    found, the part after it. *)
Definition partition (c : ascii) (s : string) : string * bool * string :=
  match find c s with
  | Some i => (take i s, true, drop (S i) s)
  | None => (s, false, EmptyString)
  end.

(** [s.rpartition(c)[2]]: what follows the last [c], or all of [s]. *)
Definition rpartition_tail (c : ascii) (s : string) : string :=
  match rfind c s with
  | Some i => drop (S i) s
  | None => s
  end.

(** [s.split(c, 1)] for an [s] that contains [c]; [(s, "")] otherwise. *)
Definition split1 (c : ascii) (s : string) : string * string :=
  match find c s with
  | Some i => (take i s, drop (S i) s)
  | None => (s, EmptyString)
  end.

(** [sep.join(l)] *)
Fixpoint join (sep : string) (l : list string) : string :=
  match l with
  | [] => EmptyString
  | [x] => x
  | x :: r => x +:+ sep +:+ join sep r
  end.

(** [s.startswith(c)] for a one-character [c]. *)
Definition startswith (c : ascii) (s : string) : bool :=
  match s with
  | String a _ => Ascii.eqb a c
  | EmptyString => false
  end.

Definition code (a : ascii) : N := N_of_ascii a.

(** [c.isascii()] *)
Definition isascii (a : ascii) : bool := (code a <? 128)%N.

(** [c.isalpha()] on an ASCII character. *)
Definition isalpha (a : ascii) : bool :=
  ((65 <=? code a) && (code a <=? 90) || (97 <=? code a) && (code a <=? 122))%N.

(** [s.isascii()] *)
Fixpoint all_ascii (s : string) : bool :=
  match s with
  | EmptyString => true
  | String a r => isascii a && all_ascii r
  end.

Definition lower_char (a : ascii) : ascii :=
  if ((65 <=? code a) && (code a <=? 90))%N then ascii_of_N (code a + 32) else a.

(** [s.lower()] on ASCII letters. *)
Fixpoint lower (s : string) : string :=
  match s with
  | EmptyString => EmptyString
  | String a r => String (lower_char a) (lower r)
  end.

Fixpoint all_chars (p : ascii -> bool) (s : string) : bool :=
  match s with
  | EmptyString => true
  | String a r => p a && all_chars p r
  end.

(** truthiness of a [str] *)
Definition nonempty (s : string) : bool :=
  match s with
  | EmptyString => false
  | String _ _ => true
  end.

(** [x in l] for a list of strings. *)
Definition in_list (x : string) (l : list string) : bool :=
  existsb (String.eqb x) l.

End PyStr.

(* ===================================================================== *)
(** ** [urllib.parse]: [urlsplit], [urlparse], [urlunparse], [urljoin] *)
(* ===================================================================== *)

Module UrlLib.

Import PyStr.

Definition uses_relative : list string :=
  [""; "ftp"; "http"; "gopher"; "nntp"; "imap";
   "wais"; "file"; "https"; "shttp"; "mms";
   "prospero"; "rtsp"; "rtspu"; "sftp";
   "svn"; "svn+ssh"; "ws"; "wss"].

Definition uses_netloc : list string :=
  [""; "ftp"; "http"; "gopher"; "nntp"; "telnet";
   "imap"; "wais"; "file"; "mms"; "https"; "shttp";
   "snews"; "prospero"; "rtsp"; "rtspu"; "rsync";
   "svn"; "svn+ssh"; "sftp"; "nfs"; "git"; "git+ssh";
   "ws"; "wss"].

Definition uses_params : list string :=
  [""; "ftp"; "hdl"; "prospero"; "http"; "imap";
   "https"; "shttp"; "rtsp"; "rtspu"; "sip"; "sips";
   "mms"; "sftp"; "tel"].

Definition scheme_chars : string :=
  "abcdefghijklmnopqrstuvwxyzABCDEFGHIJKLMNOPQRSTUVWXYZ0123456789+-.".

(** Membership in [_WHATWG_C0_CONTROL_OR_SPACE], the characters
    [chr(0)] to [chr(0x20)]. *)
Definition c0_control_or_space (a : ascii) : bool := (code a <=? 32)%N.

(** [_UNSAFE_URL_BYTES_TO_REMOVE = ['\t', '\r', '\n']] *)
Definition unsafe_url_bytes_to_remove : list ascii :=
  [ascii_of_N 9; ascii_of_N 13; ascii_of_N 10].

(** The 5-tuple of [urlsplit] and the 6-tuple of [urlparse]. *)
Record SplitResult := mk_split {
  sr_scheme : string; sr_netloc : string; sr_path : string;
  sr_query : string; sr_fragment : string }.

Record ParseResult := mk_parse {
  scheme : string; netloc : string; path : string;
  params : string; query : string; fragment : string }.

(** [_splitparams] *)
Definition splitparams (url : string) : string * string :=
  if contains "/" url then
    match rfind "/" url with
    | Some j =>
        match find_from ";" j url with
        | Some i => (take i url, drop (S i) url)
        | None => (url, "")
        end
    | None => (url, "")
    end
  else
    match find ";" url with
    | Some i => (take i url, drop (S i) url)
    | None =>
        (* [i = -1]: [url[:-1], url[0:]]; not reached from [urlparse],
           which calls [_splitparams] only when [';' in url]. *)
        (take (String.length url - 1) url, url)
    end.

(** [_splitnetloc]: [delim] is the earliest of the delimiters
    [/], [?], [#] at or after [start], or the length of [url]. *)
Definition splitnetloc (url : string) (start : nat) : string * string :=
  let delim :=
    fold_left
      (fun delim c =>
         match find_from c start url with
         | Some wdelim => Nat.min delim wdelim
         | None => delim
         end)
      ["/"%char; "?"%char; "#"%char] (String.length url) in
  (take (delim - start) (drop start url), drop delim url).

Section Library.

(** [_check_bracketed_host]: decided by [re.match] and
    [ipaddress.ip_address]; [Some msg] when it raises
    [ValueError(msg)]. *)
Variable check_bracketed_host : string -> option string.

(** [unicodedata.normalize('NFKC', _)] *)
Variable nfkc : string -> string.

(** [_checknetloc] *)
Definition checknetloc (netloc : string) : outcome unit :=
  if negb (nonempty netloc) || all_ascii netloc then Ret tt
  else
    let n := remove "?" (remove "#" (remove ":" (remove "@" netloc))) in
    let netloc2 := nfkc n in
    if String.eqb n netloc2 then Ret tt
    else if existsb (fun c => contains c netloc2)
              ["/"%char; "?"%char; "#"%char; "@"%char; ":"%char]
    then Raise (ValueError ("netloc '" +:+ netloc +:+ "' contains invalid "
                              +:+ "characters under NFKC normalization"))
    else Ret tt.

(** [_check_bracketed_netloc] *)
Definition check_bracketed_netloc (netloc : string) : outcome unit :=
  let hostname_and_port := rpartition_tail "@" netloc in
  let '(before_bracket, have_open_br, bracketed) :=
    partition "[" hostname_and_port in
  do hostname <-
    (if have_open_br then
       if nonempty before_bracket then Raise (ValueError "Invalid IPv6 URL")
       else
         let '(hostname, _, port) := partition "]" bracketed in
         if nonempty port && negb (startswith ":" port)
         then Raise (ValueError "Invalid IPv6 URL")
         else Ret hostname
     else
       let '(hostname, _, _) := partition ":" hostname_and_port in
       Ret hostname);
  match check_bracketed_host hostname with
  | Some msg => Raise (ValueError msg)
  | None => Ret tt
  end.

(** [urlsplit(url, scheme, allow_fragments)] *)
Definition urlsplit (url scheme : string) (allow_fragments : bool)
  : outcome SplitResult :=
  let url := lstrip c0_control_or_space url in
  let scheme := strip c0_control_or_space scheme in
  let url := fold_left (fun u b => remove b u) unsafe_url_bytes_to_remove url in
  let scheme :=
    fold_left (fun u b => remove b u) unsafe_url_bytes_to_remove scheme in
  let '(scheme, url) :=
    match find ":" url, url with
    | Some (S i'), String c0 _ =>
        let i := S i' in
        if isascii c0 && isalpha c0 then
          if all_chars (fun c => contains c scheme_chars) (take i url)
          then (lower (take i url), drop (S i) url)
          else (scheme, url)
        else (scheme, url)
    | _, _ => (scheme, url)
    end in
  do (netloc, url) <-
    (if String.eqb (take 2 url) "//" then
       let '(netloc, url) := splitnetloc url 2 in
       if (contains "[" netloc && negb (contains "]" netloc))
          || (contains "]" netloc && negb (contains "[" netloc))
       then Raise (ValueError "Invalid IPv6 URL")
       else
         do _ <- (if contains "[" netloc && contains "]" netloc
                  then check_bracketed_netloc netloc else Ret tt);
         Ret (netloc, url)
     else Ret ("", url));
  let '(url, fragment) :=
    if allow_fragments && contains "#" url then split1 "#" url else (url, "") in
  let '(url, query) :=
    if contains "?" url then split1 "?" url else (url, "") in
  do _ <- checknetloc netloc;
  Ret (mk_split scheme netloc url query fragment).

(** [urlparse(url, scheme, allow_fragments)] *)
Definition urlparse (url scheme : string) (allow_fragments : bool)
  : outcome ParseResult :=
  do splitresult <- urlsplit url scheme allow_fragments;
  let '(mk_split scheme netloc url query fragment) := splitresult in
  let '(url, params) :=
    if in_list scheme uses_params && contains ";" url
    then splitparams url else (url, "") in
  Ret (mk_parse scheme netloc url params query fragment).

End Library.

(** [urlunsplit] *)
Definition urlunsplit (c : SplitResult) : string :=
  let '(mk_split scheme netloc url query fragment) := c in
  let url :=
    if nonempty netloc
       || (nonempty scheme && in_list scheme uses_netloc
           && negb (String.eqb (take 2 url) "//"))
    then
      let url :=
        if nonempty url && negb (String.eqb (take 1 url) "/")
        then "/" +:+ url else url in
      "//" +:+ netloc +:+ url
    else url in
  let url := if nonempty scheme then scheme +:+ ":" +:+ url else url in
  let url := if nonempty query then url +:+ "?" +:+ query else url in
  let url := if nonempty fragment then url +:+ "#" +:+ fragment else url in
  url.

(** [urlunparse] *)
Definition urlunparse (c : ParseResult) : string :=
  let '(mk_parse scheme netloc url params query fragment) := c in
  let url := if nonempty params then url +:+ ";" +:+ params else url in
  urlunsplit (mk_split scheme netloc url query fragment).

(** [segments[1:-1] = filter(None, segments[1:-1])]: the empty strings
    strictly between the first and the last element are dropped. *)
Definition filter_inner (segments : list string) : list string :=
  match segments with
  | first :: (_ :: _) as rest =>
      first :: List.filter nonempty (removelast rest) ++ [List.last rest ""]
  | _ => segments
  end.

(** The loop of [urljoin] over [segments], building [resolved_path]. *)
Definition resolve_segments (segments : list string) : list string :=
  fold_left
    (fun resolved_path seg =>
       if String.eqb seg ".." then removelast resolved_path
       else if String.eqb seg "." then resolved_path
       else resolved_path ++ [seg])
    segments [].

(** [urljoin(base, url, allow_fragments)] *)
Definition urljoin (check_bracketed_host : string -> option string)
    (nfkc : string -> string)
    (base url : string) (allow_fragments : bool) : outcome string :=
  if negb (nonempty base) then Ret url
  else if negb (nonempty url) then Ret base
  else
    do b <- urlparse check_bracketed_host nfkc base "" allow_fragments;
    let '(mk_parse bscheme bnetloc bpath bparams bquery bfragment) := b in
    do u <- urlparse check_bracketed_host nfkc url bscheme allow_fragments;
    let '(mk_parse scheme netloc path params query fragment) := u in
    if negb (String.eqb scheme bscheme) || negb (in_list scheme uses_relative)
    then Ret url
    else if in_list scheme uses_netloc && nonempty netloc
    then Ret (urlunparse (mk_parse scheme netloc path params query fragment))
    else
      let netloc := if in_list scheme uses_netloc then bnetloc else netloc in
      if negb (nonempty path) && negb (nonempty params) then
        let path := bpath in
        let params := bparams in
        let query := if negb (nonempty query) then bquery else query in
        Ret (urlunparse (mk_parse scheme netloc path params query fragment))
      else
        let base_parts := split "/" bpath in
        let base_parts :=
          if negb (String.eqb (List.last base_parts "") "")
          then removelast base_parts else base_parts in
        let segments :=
          if String.eqb (take 1 path) "/" then split "/" path
          else filter_inner (base_parts ++ split "/" path) in
        let resolved_path := resolve_segments segments in
        let resolved_path :=
          if in_list (List.last segments "") ["."; ".."]
          then resolved_path ++ [""] else resolved_path in
        let joined := join "/" resolved_path in
        Ret (urlunparse
               (mk_parse scheme netloc
                  (if nonempty joined then joined else "/")
                  params query fragment)).

(** The URL as [urlsplit] goes on to read it: leading C0 control
    characters and spaces stripped, tabs and line ends removed. *)
Definition cleaned (url : string) : string :=
  fold_left (fun u b => remove b u) unsafe_url_bytes_to_remove
    (lstrip c0_control_or_space url).

(** A reference that starts with one [/], and not with [//]. *)
Definition rooted (url : string) : bool :=
  match cleaned url with
  | String a r => Ascii.eqb a "/" && negb (startswith "/" r)
  | EmptyString => false
  end.

(** What makes [urljoin] leave the path of the base out of its result:
    the reference, parsed with the scheme of the base as default, has
    another scheme (or one that takes no relative references), or a
    network location, or a path component that starts with [/]. *)
Definition replaces_base_path (bscheme : string) (u : ParseResult) : bool :=
  negb (String.eqb (scheme u) bscheme)
  || negb (in_list (scheme u) uses_relative)
  || nonempty (netloc u)
  || startswith "/" (path u).

End UrlLib.

(* ===================================================================== *)
(** ** Python values, objects and the collaborators of the class *)
(* ===================================================================== *)

(** References to objects in the store. *)
Abbreviation loc := positive.

(** What a header mapping holds: the docstrings say [str]; [None] is the
    value [dict.get] answers for a missing key and can also be stored. *)
Inductive pyval : Type :=
| PyNone
| PyStr (s : string).

#[global] Instance pyval_eq_dec : EqDecision pyval.
Proof. solve_decision. Defined.

(** A [dict] with [str] keys, as the header mapping is. *)
Abbreviation dict := (gmap string pyval).

(** [verify]: a boolean or the path of a CA bundle. *)
Inductive verify_t : Type :=
| VerifyBool (b : bool)
| VerifyPath (ca_bundle : string).

(** The [data] argument of the verb methods. *)
Inductive payload : Type :=
| DataNone
| DataDict (d : gmap string string)
| DataStr (s : string).

(** Python truthiness of a payload, as [data or dict()] tests it. *)
Definition truthy (p : payload) : bool :=
  match p with
  | DataNone => false
  | DataDict d => negb (bool_decide (d = ∅))
  | DataStr s => PyStr.nonempty s
  end.

Inductive verb : Type := GET | POST | PUT | DELETE.

(** [Session.auth]: [None] in a new session; the constructor installs
    [lambda x: x]. *)
Inductive auth_hook : Type := AuthDefault | AuthIdentity.

(** The part of a [requests.Session] the class touches. *)
Record Session := mk_session {
  s_auth : auth_hook;
  s_proxies : gmap string string
}.

(** [requests.Session()] *)
Definition new_session : Session :=
  {| s_auth := AuthDefault; s_proxies := ∅ |}.

(** What one call [self._s.<verb>(url, params=, data=, headers=, timeout=,
    verify=)] hands to the session; [req_headers] is the content of the
    header mapping at the time of the call. *)
Record Request := mk_request {
  req_method : verb;
  req_url : string;
  req_params : gmap string string;
  req_data : option payload;
  req_headers : dict;
  req_timeout : Z;
  req_verify : verify_t
}.

(** A [requests.Response]. *)
Record Response := mk_response {
  status_code : Z;
  resp_headers : gmap string string;
  resp_body : string
}.

(** An instance of [ConnectionManager]: its attributes. [_headers] is a
    reference to a dict object, not a dict. *)
Record ConnectionManager := mk_cm {
  _base_url : string;
  _headers : loc;
  _timeout : Z;
  _verify : verify_t;
  _s : Session
}.

Definition with_base_url (value : string) (o : ConnectionManager) :=
  {| _base_url := value; _headers := _headers o; _timeout := _timeout o;
     _verify := _verify o; _s := _s o |}.
Definition with_headers (value : loc) (o : ConnectionManager) :=
  {| _base_url := _base_url o; _headers := value; _timeout := _timeout o;
     _verify := _verify o; _s := _s o |}.
Definition with_timeout (value : Z) (o : ConnectionManager) :=
  {| _base_url := _base_url o; _headers := _headers o; _timeout := value;
     _verify := _verify o; _s := _s o |}.
Definition with_verify (value : verify_t) (o : ConnectionManager) :=
  {| _base_url := _base_url o; _headers := _headers o; _timeout := _timeout o;
     _verify := value; _s := _s o |}.

(** The exception the verb methods raise:
    [Exception("Can't connect to server (%s)" % e)], raised while [e] is
    being handled. *)
Definition connect_error (e : exc) : exc :=
  {| exc_class := "Exception"; exc_is_Exception := true;
     exc_str := "Can't connect to server (" +:+ exc_str e +:+ ")";
     exc_context := Some e |}.

(* ===================================================================== *)
(** ** A scripted network, for the examples *)
(* ===================================================================== *)

Module Demo.

(** The answers the network will give, in order; once the script is
    used up every request is answered [200 OK]. *)
Definition Net : Type := list (outcome Response).

Definition ok : Response :=
  {| status_code := 200; resp_headers := ∅; resp_body := "" |}.

Definition not_found : Response :=
  {| status_code := 404; resp_headers := ∅; resp_body := "no such item" |}.

(** What [requests] raises when the host name does not resolve. *)
Definition unreachable : exc :=
  {| exc_class := "ConnectionError"; exc_is_Exception := true;
     exc_str := "Name or service not known"; exc_context := None |}.

Definition send (sess : Session) (req : Request) (n : Net)
  : outcome Response * Net :=
  match n with
  | [] => (Ret ok, [])
  | r :: n' => (r, n')
  end.

(** Stand-ins for the library calls of [urllib.parse]; no URL of the
    examples has a bracketed host or a character outside ASCII, so
    neither is consulted. *)
Definition check_bracketed_host (hostname : string) : option string := None.
Definition nfkc (s : string) : string := s.

End Demo.

(* ===================================================================== *)
(** ** The class [ConnectionManager] *)
(* ===================================================================== *)

Section Model.

(** Everything behind the session: the network, the servers, the
    connection pool. *)
Variable Net : Type.

(** One request through [requests.Session]: it answers a response or
    raises, and moves the network on. The session reads the header
    mapping and does not write to it. *)
Variable send : Session -> Request -> Net -> outcome Response * Net.

(** The library calls [urllib.parse] depends on. *)
Variable check_bracketed_host : string -> option string.
Variable nfkc : string -> string.

(** The state of the program: the dict objects, the [ConnectionManager]
    instances, the dict created once for the default [headers={}] when
    the [def] statement of [__init__] is executed, the network, and the
    requests handed to sessions so far, oldest first. *)
Record State := mk_state {
  dicts : gmap loc dict;
  objs : gmap loc ConnectionManager;
  default_headers : loc;
  net : Net;
  wire : list Request
}.

Definition with_dicts (f : gmap loc dict -> gmap loc dict) (s : State) :=
  {| dicts := f (dicts s); objs := objs s;
     default_headers := default_headers s; net := net s; wire := wire s |}.
Definition with_objs
    (f : gmap loc ConnectionManager -> gmap loc ConnectionManager) (s : State) :=
  {| dicts := dicts s; objs := f (objs s);
     default_headers := default_headers s; net := net s; wire := wire s |}.

(** The state once the module is imported: the default dict of
    [__init__] exists and is empty, there is no instance. *)
Definition module_loaded (n : Net) : State :=
  {| dicts := {[ 1%positive := ∅ ]}; objs := ∅;
     default_headers := 1%positive; net := n; wire := [] |}.

(** *** The monad of methods *)

Definition M (A : Type) : Type := State -> outcome A * State.

Definition ret {A} (a : A) : M A := fun s => (Ret a, s).
Definition raise {A} (e : exc) : M A := fun s => (Raise e, s).
Definition lift {A} (o : outcome A) : M A := fun s => (o, s).

Definition bind {A B} (m : M A) (k : A -> M B) : M B :=
  fun s =>
    match m s with
    | (Ret a, s') => k a s'
    | (Raise e, s') => (Raise e, s')
    | (Wrong, s') => (Wrong, s')
    end.

Notation "'run' x <- m ; k" := (bind m (fun x => k))
  (at level 10, x pattern, m at level 100, k at level 200).

(** [try: body  except Exception as e: handler e]. An exception that
    does not derive from [Exception] passes through. *)
Definition try_except_Exception {A} (body : M A) (handler : exc -> M A) : M A :=
  fun s =>
    match body s with
    | (Raise e, s') =>
        if exc_is_Exception e then handler e s' else (Raise e, s')
    | r => r
    end.

(** Attribute read and write on an instance. *)
Definition getattr {A} (self : loc) (field : ConnectionManager -> A) : M A :=
  fun s =>
    match objs s !! self with
    | Some o => (Ret (field o), s)
    | None => (Wrong, s)
    end.

Definition setattr (self : loc)
    (upd : ConnectionManager -> ConnectionManager) : M unit :=
  fun s =>
    match objs s !! self with
    | Some o => (Ret tt, with_objs (insert self (upd o)) s)
    | None => (Wrong, s)
    end.

(** *** [dict] operations *)

(** A dict display [{...}]: a new object. *)
Definition new_dict (d : dict) : M loc :=
  fun s =>
    let l := fresh (dom (dicts s)) in
    (Ret l, with_dicts (insert l d) s).

(** The content of a dict object. *)
Definition dict_read (l : loc) : M dict :=
  fun s =>
    match dicts s !! l with
    | Some d => (Ret d, s)
    | None => (Wrong, s)
    end.

(** [d.get(key)] *)
Definition dict_get (l : loc) (key : string) : M pyval :=
  run d <- dict_read l;
  ret (default PyNone (d !! key)).

(** [d[key] = value] *)
Definition dict_setitem (l : loc) (key : string) (value : pyval) : M unit :=
  run d <- dict_read l;
  fun s => (Ret tt, with_dicts (insert l (<[key := value]> d)) s).

(** [d.pop(key, None)] *)
Definition dict_pop (l : loc) (key : string) : M pyval :=
  run d <- dict_read l;
  fun s => (Ret (default PyNone (d !! key)),
            with_dicts (insert l (delete key d)) s).

(** *** Construction *)

(** [__init__(self, base_url, headers={}, timeout=60, verify=True,
    proxies=None)]; an argument left out is [None] here. The default of
    [headers] is the one dict [default_headers]. *)
Definition init (base_url : string) (headers : option loc)
    (timeout : option Z) (verify : option verify_t)
    (proxies : option (gmap string string)) : M loc :=
  fun s =>
    let self := fresh (dom (objs s)) in
    let headers := default (default_headers s) headers in
    let timeout := default 60%Z timeout in
    let verify := default (VerifyBool true) verify in
    let sess := {| s_auth := AuthIdentity; s_proxies := s_proxies new_session |} in
    let sess :=
      match proxies with
      | Some p =>
          if bool_decide (p = ∅) then sess
          else {| s_auth := s_auth sess; s_proxies := p ∪ s_proxies sess |}
      | None => sess
      end in
    (Ret self,
     with_objs (insert self
                  {| _base_url := base_url; _headers := headers;
                     _timeout := timeout; _verify := verify; _s := sess |}) s).

(** *** Properties *)

Definition base_url (self : loc) : M string := getattr self _base_url.
Definition set_base_url (self : loc) (value : string) : M unit :=
  setattr self (with_base_url value).

Definition timeout (self : loc) : M Z := getattr self _timeout.
Definition set_timeout (self : loc) (value : Z) : M unit :=
  setattr self (with_timeout value).

Definition verify (self : loc) : M verify_t := getattr self _verify.
Definition set_verify (self : loc) (value : verify_t) : M unit :=
  setattr self (with_verify value).

Definition headers (self : loc) : M loc := getattr self _headers.
Definition set_headers (self : loc) (value : loc) : M unit :=
  setattr self (with_headers value).

(** *** Header operations *)

(** [return self.headers.get(key)] *)
Definition param_headers (self : loc) (key : string) : M pyval :=
  run h <- headers self;
  dict_get h key.

(** [self.headers = {}] *)
Definition clean_headers (self : loc) : M unit :=
  run h <- new_dict ∅;
  set_headers self h.

(** [return self.param_headers(key) is not None] *)
Definition exist_param_headers (self : loc) (key : string) : M bool :=
  run v <- param_headers self key;
  ret (negb (bool_decide (v = PyNone))).

(** [self.headers[key] = value] *)
Definition add_param_headers (self : loc) (key : string) (value : pyval) : M unit :=
  run h <- headers self;
  dict_setitem h key value.

(** [self.headers.pop(key, None)] *)
Definition del_param_headers (self : loc) (key : string) : M unit :=
  run h <- headers self;
  run _ <- dict_pop h key;
  ret tt.

(** *** Request operations *)

(** [session.<verb>(url, params=, data=, headers=, timeout=, verify=)]:
    the session reads the header mapping, the request goes on the wire,
    the network answers. *)
Definition session_request (sess : Session) (method : verb) (url : string)
    (params : gmap string string) (data : option payload)
    (headers : loc) (timeout : Z) (verify : verify_t) : M Response :=
  run hd <- dict_read headers;
  fun s =>
    let req := {| req_method := method; req_url := url; req_params := params;
                  req_data := data; req_headers := hd;
                  req_timeout := timeout; req_verify := verify |} in
    let '(r, n) := send sess req (net s) in
    (r, {| dicts := dicts s; objs := objs s;
           default_headers := default_headers s;
           net := n; wire := wire s ++ [req] |}).

Definition raw_get (self : loc) (path : string) (kwargs : gmap string string)
  : M Response :=
  try_except_Exception
    (run sess <- getattr self _s;
     run b <- base_url self;
     run url <- lift (UrlLib.urljoin check_bracketed_host nfkc b path true);
     run h <- headers self;
     run t <- timeout self;
     run v <- verify self;
     session_request sess GET url kwargs None h t v)
    (fun e => raise (connect_error e)).

Definition raw_post (self : loc) (path : string) (data : payload)
    (kwargs : gmap string string) : M Response :=
  try_except_Exception
    (run sess <- getattr self _s;
     run b <- base_url self;
     run url <- lift (UrlLib.urljoin check_bracketed_host nfkc b path true);
     run h <- headers self;
     run t <- timeout self;
     run v <- verify self;
     session_request sess POST url kwargs (Some data) h t v)
    (fun e => raise (connect_error e)).

Definition raw_put (self : loc) (path : string) (data : payload)
    (kwargs : gmap string string) : M Response :=
  try_except_Exception
    (run sess <- getattr self _s;
     run b <- base_url self;
     run url <- lift (UrlLib.urljoin check_bracketed_host nfkc b path true);
     run h <- headers self;
     run t <- timeout self;
     run v <- verify self;
     session_request sess PUT url kwargs (Some data) h t v)
    (fun e => raise (connect_error e)).

(** [data=None] by default; [data or dict()] is sent. *)
Definition raw_delete (self : loc) (path : string) (data : option payload)
    (kwargs : gmap string string) : M Response :=
  try_except_Exception
    (run sess <- getattr self _s;
     run b <- base_url self;
     run url <- lift (UrlLib.urljoin check_bracketed_host nfkc b path true);
     let data := default DataNone data in
     let data := if truthy data then data else DataDict ∅ in
     run h <- headers self;
     run t <- timeout self;
     run v <- verify self;
     session_request sess DELETE url kwargs (Some data) h t v)
    (fun e => raise (connect_error e)).

(** *** Programs that use the class

    A caller of the module builds dicts, constructs instances and calls
    their methods and properties. [exec] runs one such call and keeps
    the state it leaves. The finalizer [__del__], which closes the
    session of an instance that is collected, is not among the calls. *)

Inductive call : Type :=
| NewDict (d : dict)
| Init (base_url : string) (headers : option loc) (timeout : option Z)
    (verify : option verify_t) (proxies : option (gmap string string))
| GetBaseUrl (self : loc)
| SetBaseUrl (self : loc) (value : string)
| GetTimeout (self : loc)
| SetTimeout (self : loc) (value : Z)
| GetVerify (self : loc)
| SetVerify (self : loc) (value : verify_t)
| GetHeaders (self : loc)
| SetHeaders (self : loc) (value : loc)
| ParamHeaders (self : loc) (key : string)
| CleanHeaders (self : loc)
| ExistParamHeaders (self : loc) (key : string)
| AddParamHeaders (self : loc) (key : string) (value : pyval)
| DelParamHeaders (self : loc) (key : string)
| RawGet (self : loc) (path : string) (kwargs : gmap string string)
| RawPost (self : loc) (path : string) (data : payload)
    (kwargs : gmap string string)
| RawPut (self : loc) (path : string) (data : payload)
    (kwargs : gmap string string)
| RawDelete (self : loc) (path : string) (data : option payload)
    (kwargs : gmap string string).

Definition exec (c : call) (s : State) : State :=
  match c with
  | NewDict d => snd (new_dict d s)
  | Init b h t v p => snd (init b h t v p s)
  | GetBaseUrl self => snd (base_url self s)
  | SetBaseUrl self value => snd (set_base_url self value s)
  | GetTimeout self => snd (timeout self s)
  | SetTimeout self value => snd (set_timeout self value s)
  | GetVerify self => snd (verify self s)
  | SetVerify self value => snd (set_verify self value s)
  | GetHeaders self => snd (headers self s)
  | SetHeaders self value => snd (set_headers self value s)
  | ParamHeaders self key => snd (param_headers self key s)
  | CleanHeaders self => snd (clean_headers self s)
  | ExistParamHeaders self key => snd (exist_param_headers self key s)
  | AddParamHeaders self key value => snd (add_param_headers self key value s)
  | DelParamHeaders self key => snd (del_param_headers self key s)
  | RawGet self path kwargs => snd (raw_get self path kwargs s)
  | RawPost self path data kwargs => snd (raw_post self path data kwargs s)
  | RawPut self path data kwargs => snd (raw_put self path data kwargs s)
  | RawDelete self path data kwargs => snd (raw_delete self path data kwargs s)
  end.

Definition exec_all (cs : list call) (s : State) : State :=
  fold_left (fun s c => exec c s) cs s.

(** A call a Python program can make in state [s]: the references it
    passes name objects that exist. *)
Definition call_ok (s : State) (c : call) : Prop :=
  match c with
  | NewDict _ => True
  | Init _ h _ _ _ =>
      match h with
      | Some l => is_Some (dicts s !! l)
      | None => True
      end
  | SetHeaders self value =>
      is_Some (objs s !! self) /\ is_Some (dicts s !! value)
  | GetBaseUrl self | SetBaseUrl self _ | GetTimeout self | SetTimeout self _
  | GetVerify self | SetVerify self _ | GetHeaders self
  | ParamHeaders self _ | CleanHeaders self | ExistParamHeaders self _
  | AddParamHeaders self _ _ | DelParamHeaders self _
  | RawGet self _ _ | RawPost self _ _ _ | RawPut self _ _ _
  | RawDelete self _ _ _ => is_Some (objs s !! self)
  end.

(** The states a program reaches from the import of the module. *)
Inductive reachable : State -> Prop :=
| reachable_loaded (n : Net) : reachable (module_loaded n)
| reachable_call (s : State) (c : call) :
    reachable s -> call_ok s c -> reachable (exec c s).

(** The header mapping of every instance, and the default of
    [__init__], is a dict of the store. *)
Definition headers_valid (s : State) : Prop :=
  is_Some (dicts s !! default_headers s) /\
  forall (self : loc) (o : ConnectionManager),
    objs s !! self = Some o -> is_Some (dicts s !! _headers o).

(** The dict object instance [self] refers to as its headers. *)
Definition headers_ref (s : State) (self : loc) : option loc :=
  _headers <$> objs s !! self.

(** The content of the header mapping of [self]. *)
Definition headers_of (s : State) (self : loc) : option dict :=
  o ← objs s !! self; dicts s !! _headers o.

(** The configuration of [self]: base URL, header mapping (which object
    and what it holds), timeout and verify. *)
Definition config (s : State) (self : loc)
  : option (string * loc * dict * Z * verify_t) :=
  o ← objs s !! self;
  d ← dicts s !! _headers o;
  Some (_base_url o, _headers o, d, _timeout o, _verify o).

(** Whether call [c], made in state [s], can change what
    [param_headers(key)] answers on [self]: it writes or deletes [key]
    in the dict [self] uses (through any instance that shares it), or it
    gives [self] another dict. *)
Definition disturbs (self : loc) (key : string) (s : State) (c : call) : Prop :=
  match c with
  | AddParamHeaders j k _ | DelParamHeaders j k =>
      k = key /\ headers_ref s j = headers_ref s self
  | CleanHeaders j | SetHeaders j _ => j = self
  | _ => False
  end.

(** A sequence of calls, run from [s], none of which disturbs
    [param_headers(key)] on [self]. *)
Fixpoint undisturbed (self : loc) (key : string) (s : State) (cs : list call)
  : Prop :=
  match cs with
  | [] => True
  | c :: cs' =>
      ~ disturbs self key s c /\ undisturbed self key (exec c s) cs'
  end.

(** The request a verb method builds for instance [o] whose header
    mapping holds [hd]. *)
Definition request_of (o : ConnectionManager) (hd : dict) (method : verb)
    (url : string) (kwargs : gmap string string) (data : option payload)
  : Request :=
  {| req_method := method; req_url := url; req_params := kwargs;
     req_data := data; req_headers := hd;
     req_timeout := _timeout o; req_verify := _verify o |}.

(** [data or dict()] *)
Definition delete_data (data : option payload) : payload :=
  if truthy (default DataNone data) then default DataNone data else DataDict ∅.

(** What the verb methods do once the target URL is known: one request
    goes to the session, its answer is returned, and an exception that
    derives from [Exception] is replaced by [connect_error]. *)
Definition relay (o : ConnectionManager) (hd : dict) (method : verb)
    (url : string) (kwargs : gmap string string) (data : option payload)
    (s : State) : outcome Response * State :=
  let req := request_of o hd method url kwargs data in
  let s' := {| dicts := dicts s; objs := objs s;
               default_headers := default_headers s;
               net := snd (send (_s o) req (net s));
               wire := wire s ++ [req] |} in
  match fst (send (_s o) req (net s)) with
  | Raise e => if exc_is_Exception e then (Raise (connect_error e), s')
               else (Raise e, s')
  | r => (r, s')
  end.

(** What they do when [urljoin] has answered [u]. *)
Definition relay_joined (u : outcome string) (o : ConnectionManager)
    (hd : dict) (method : verb) (kwargs : gmap string string)
    (data : option payload) (s : State) : outcome Response * State :=
  match u with
  | Ret url => relay o hd method url kwargs data s
  | Raise e => if exc_is_Exception e then (Raise (connect_error e), s)
               else (Raise e, s)
  | Wrong => (Wrong, s)
  end.

(** The state after [ConnectionManager("http://host/api/")] in a freshly
    imported module, and the instance it creates (at reference [1]). *)
Definition one_instance (n : Net) : State :=
  snd (init "http://host/api/" None None None None (module_loaded n)).

Definition the_instance : ConnectionManager :=
  {| _base_url := "http://host/api/"; _headers := 1%positive;
     _timeout := 60; _verify := VerifyBool true;
     _s := {| s_auth := AuthIdentity; s_proxies := ∅ |} |}.

(** The calls that, in the words of the specification, overwrite [key]
    through [add_param_headers] or remove it through [del_param_headers]
    or [clean_headers]. *)
Definition overwrites_or_removes (key : string) (c : call) : bool :=
  match c with
  | AddParamHeaders _ k _ | DelParamHeaders _ k => String.eqb k key
  | CleanHeaders _ => true
  | _ => false
  end.

(** *** Notions used to state the properties *)

(** The store a state holds: dict objects, instances, default dict. *)
Definition store (s : State)
  : gmap loc dict * gmap loc ConnectionManager * loc :=
  (dicts s, objs s, default_headers s).

(** A computation that leaves the store as it found it. *)
Definition keeps_store {A} (m : M A) : Prop :=
  forall s, store (snd (m s)) = store s.

(** Instance [self] exists, its header mapping is the dict [d]. *)
Definition instance_at (s : State) (self : loc) (o : ConnectionManager)
    (d : dict) : Prop :=
  objs s !! self = Some o /\ dicts s !! _headers o = Some d.

(** [param_headers(key)] answers [v] on [self]. *)
Definition answers (self : loc) (key : string) (v : pyval) (s : State) : Prop :=
  exists o d, instance_at s self o d /\ default PyNone (d !! key) = v.

(** [res] is what a verb method gives when it hands request [req] to
    session [sess] once, from state [s]:
    - one request, [req], is added to the wire and the network has
      taken one step (the call is not repeated);
    - a response is returned as it is, whatever its status code;
    - an exception [e] deriving from [Exception] becomes an [Exception]
      whose text is [Can't connect to server (str(e))], whatever the
      class of [e]. *)
Definition relayed_once (s : State) (sess : Session) (req : Request)
    (res : outcome Response * State) : Prop :=
  wire (snd res) = wire s ++ [req] /\
  net (snd res) = snd (send sess req (net s)) /\
  (forall r, fst (send sess req (net s)) = Ret r -> fst res = Ret r) /\
  (forall e, fst (send sess req (net s)) = Raise e ->
             exc_is_Exception e = true ->
             fst res
             = Raise {| exc_class := "Exception"; exc_is_Exception := true;
                        exc_str := "Can't connect to server ("
                                   +:+ exc_str e +:+ ")";
                        exc_context := Some e |}).

(** The session instance [self] holds. *)
Definition session_of (s : State) (self : loc) : option Session :=
  _s <$> objs s !! self.

(** The calls that reach the session: the four verb methods. *)
Definition is_verb_call (c : call) : bool :=
  match c with
  | RawGet _ _ _ | RawPost _ _ _ _ | RawPut _ _ _ _ | RawDelete _ _ _ _ => true
  | _ => false
  end.

(** Called in state [s] with [path] and [kwargs], each of the four verb
    methods hands the session the request it builds for instance [o],
    header content [hd] and target [url]. *)
Definition verbs_send (s : State) (self : loc) (path : string)
    (kwargs : gmap string string) (data : payload) (odata : option payload)
    (o : ConnectionManager) (hd : dict) (url : string) : Prop :=
  wire (snd (raw_get self path kwargs s))
  = wire s ++ [request_of o hd GET url kwargs None] /\
  wire (snd (raw_post self path data kwargs s))
  = wire s ++ [request_of o hd POST url kwargs (Some data)] /\
  wire (snd (raw_put self path data kwargs s))
  = wire s ++ [request_of o hd PUT url kwargs (Some data)] /\
  wire (snd (raw_delete self path odata kwargs s))
  = wire s ++ [request_of o hd DELETE url kwargs (Some (delete_data odata))].

(** What a verb method answers when the session has answered [r]. *)
Definition wrapped (r : outcome Response) : outcome Response :=
  match r with
  | Raise e => if exc_is_Exception e then Raise (connect_error e) else Raise e
  | _ => r
  end.

(** An outcome that is a value or a raised [ValueError]. *)
Definition raises_only_ValueError {A} (o : outcome A) : Prop :=
  match o with
  | Ret _ => True
  | Raise e => exists msg, e = ValueError msg
  | Wrong => False
  end.

(** A computation that leaves the whole state as it found it. *)
Definition reads {A} (m : M A) : Prop := forall s, snd (m s) = s.

(** A computation that leaves the wire and the network alone, or adds
    one request to the wire. *)
Definition sends_at_most_one {A} (m : M A) : Prop :=
  forall s,
    (wire (snd (m s)) = wire s /\ net (snd (m s)) = net s) \/
    exists req, wire (snd (m s)) = wire s ++ [req].

(* =================================================================== *)
(** ** Header operations: equations *)
(* =================================================================== *)

Ltac unfold_ops :=
  unfold exist_param_headers, param_headers, add_param_headers,
    del_param_headers, clean_headers, set_headers, headers, base_url,
    set_base_url, timeout, set_timeout, verify, set_verify,
    dict_get, dict_setitem, dict_pop, dict_read, new_dict,
    getattr, setattr, bind, ret, raise, lift in *.

Lemma param_headers_eq s self o d key :
  objs s !! self = Some o -> dicts s !! _headers o = Some d ->
  param_headers self key s = (Ret (default PyNone (d !! key)), s).
Proof. intros Ho Hd. unfold_ops. by rewrite Ho, Hd. Qed.

Lemma exist_param_headers_eq s self o d key :
  objs s !! self = Some o -> dicts s !! _headers o = Some d ->
  exist_param_headers self key s
  = (Ret (negb (bool_decide (default PyNone (d !! key) = PyNone))), s).
Proof. intros Ho Hd. unfold_ops. by rewrite Ho, Hd. Qed.

Lemma add_param_headers_eq s self o d key value :
  objs s !! self = Some o -> dicts s !! _headers o = Some d ->
  add_param_headers self key value s
  = (Ret tt, with_dicts (insert (_headers o) (<[key := value]> d)) s).
Proof. intros Ho Hd. unfold_ops. by rewrite Ho, Hd. Qed.

Lemma del_param_headers_eq s self o d key :
  objs s !! self = Some o -> dicts s !! _headers o = Some d ->
  del_param_headers self key s
  = (Ret tt, with_dicts (insert (_headers o) (delete key d)) s).
Proof. intros Ho Hd. unfold_ops. by rewrite Ho, Hd. Qed.

Lemma clean_headers_eq s self o :
  objs s !! self = Some o ->
  clean_headers self s
  = (Ret tt,
     with_objs (insert self (with_headers (fresh (dom (dicts s))) o))
       (with_dicts (insert (fresh (dom (dicts s))) ∅) s)).
Proof. intros Ho. unfold_ops. simpl. by rewrite Ho. Qed.

Lemma fresh_dict_not_allocated (s : State) :
  dicts s !! fresh (dom (dicts s)) = None.
Proof. apply not_elem_of_dom, is_fresh. Qed.

Lemma fresh_obj_not_allocated (s : State) :
  objs s !! fresh (dom (objs s)) = None.
Proof. apply not_elem_of_dom, is_fresh. Qed.

(* =================================================================== *)
(** ** Verb methods: equations and frame *)
(* =================================================================== *)

Ltac unfold_raw :=
  unfold raw_get, raw_post, raw_put, raw_delete, try_except_Exception,
    session_request, relay_joined, relay, request_of, delete_data;
  unfold_ops.

Lemma raw_get_eq s self o hd path kwargs :
  objs s !! self = Some o -> dicts s !! _headers o = Some hd ->
  raw_get self path kwargs s
  = relay_joined
      (UrlLib.urljoin check_bracketed_host nfkc (_base_url o) path true)
      o hd GET kwargs None s.
Proof.
  intros Ho Hd. unfold_raw. repeat (rewrite Ho; simpl).
  destruct (UrlLib.urljoin _ _ _ _ _) as [url|e|]; simpl; try done.
  repeat (rewrite Ho; simpl). rewrite Hd. simpl.
  destruct (send _ _ _) as [[r|e|] n]; simpl; try done.
Qed.

Lemma raw_post_eq s self o hd path data kwargs :
  objs s !! self = Some o -> dicts s !! _headers o = Some hd ->
  raw_post self path data kwargs s
  = relay_joined
      (UrlLib.urljoin check_bracketed_host nfkc (_base_url o) path true)
      o hd POST kwargs (Some data) s.
Proof.
  intros Ho Hd. unfold_raw. repeat (rewrite Ho; simpl).
  destruct (UrlLib.urljoin _ _ _ _ _) as [url|e|]; simpl; try done.
  repeat (rewrite Ho; simpl). rewrite Hd. simpl.
  destruct (send _ _ _) as [[r|e|] n]; simpl; try done.
Qed.

Lemma raw_put_eq s self o hd path data kwargs :
  objs s !! self = Some o -> dicts s !! _headers o = Some hd ->
  raw_put self path data kwargs s
  = relay_joined
      (UrlLib.urljoin check_bracketed_host nfkc (_base_url o) path true)
      o hd PUT kwargs (Some data) s.
Proof.
  intros Ho Hd. unfold_raw. repeat (rewrite Ho; simpl).
  destruct (UrlLib.urljoin _ _ _ _ _) as [url|e|]; simpl; try done.
  repeat (rewrite Ho; simpl). rewrite Hd. simpl.
  destruct (send _ _ _) as [[r|e|] n]; simpl; try done.
Qed.

Lemma raw_delete_eq s self o hd path data kwargs :
  objs s !! self = Some o -> dicts s !! _headers o = Some hd ->
  raw_delete self path data kwargs s
  = relay_joined
      (UrlLib.urljoin check_bracketed_host nfkc (_base_url o) path true)
      o hd DELETE kwargs (Some (delete_data data)) s.
Proof.
  intros Ho Hd. unfold_raw. repeat (rewrite Ho; simpl).
  destruct (UrlLib.urljoin _ _ _ _ _) as [url|e|]; simpl; try done.
  repeat (rewrite Ho; simpl). rewrite Hd. simpl.
  destruct (send _ _ _) as [[r|e|] n]; simpl; try done.
Qed.

Lemma keeps_store_ret {A} (a : A) : keeps_store (ret a).
Proof. done. Qed.

Lemma keeps_store_raise {A} (e : exc) : keeps_store (@raise A e).
Proof. done. Qed.

Lemma keeps_store_lift {A} (o : outcome A) : keeps_store (lift o).
Proof. done. Qed.

Lemma keeps_store_getattr {A} self (field : ConnectionManager -> A) :
  keeps_store (getattr self field).
Proof. intros s. unfold getattr. by destruct (objs s !! self). Qed.

Lemma keeps_store_dict_read l : keeps_store (dict_read l).
Proof. intros s. unfold dict_read. by destruct (dicts s !! l). Qed.

Lemma keeps_store_bind {A B} (m : M A) (k : A -> M B) :
  keeps_store m -> (forall a, keeps_store (k a)) -> keeps_store (bind m k).
Proof.
  intros Hm Hk s. unfold bind. specialize (Hm s).
  destruct (m s) as [[a|e|] s']; simpl in *; try done.
  by rewrite Hk.
Qed.

Lemma keeps_store_try {A} (body : M A) (handler : exc -> M A) :
  keeps_store body -> (forall e, keeps_store (handler e)) ->
  keeps_store (try_except_Exception body handler).
Proof.
  intros Hb Hh s. unfold try_except_Exception. specialize (Hb s).
  destruct (body s) as [[a|e|] s']; simpl in *; try done.
  destruct (exc_is_Exception e); simpl; try done.
  by rewrite Hh.
Qed.

Lemma keeps_store_session_request sess method url params data h t v :
  keeps_store (session_request sess method url params data h t v).
Proof.
  unfold session_request. apply keeps_store_bind.
  - apply keeps_store_dict_read.
  - intros hd s. by destruct (send _ _ _).
Qed.

Ltac keeps_store_tac :=
  repeat first
    [ apply keeps_store_try | apply keeps_store_bind
    | apply keeps_store_getattr | apply keeps_store_dict_read
    | apply keeps_store_lift | apply keeps_store_raise
    | apply keeps_store_ret | apply keeps_store_session_request
    | intro ].

Lemma raw_get_store self path kwargs :
  keeps_store (raw_get self path kwargs).
Proof. unfold raw_get, base_url, headers, timeout, verify. keeps_store_tac. Qed.

Lemma raw_post_store self path data kwargs :
  keeps_store (raw_post self path data kwargs).
Proof. unfold raw_post, base_url, headers, timeout, verify. keeps_store_tac. Qed.

Lemma raw_put_store self path data kwargs :
  keeps_store (raw_put self path data kwargs).
Proof. unfold raw_put, base_url, headers, timeout, verify. keeps_store_tac. Qed.

Lemma raw_delete_store self path data kwargs :
  keeps_store (raw_delete self path data kwargs).
Proof.
  unfold raw_delete, base_url, headers, timeout, verify. keeps_store_tac.
Qed.

(* =================================================================== *)
(** ** Header operations: what they answer *)
(* =================================================================== *)

Lemma headers_of_instance s self o d :
  instance_at s self o d -> headers_of s self = Some d.
Proof. intros [Ho Hd]. unfold headers_of. rewrite Ho. simpl. done. Qed.

Lemma instance_after_dict_write s self o d d' :
  instance_at s self o d ->
  instance_at (with_dicts (insert (_headers o) d') s) self o d'.
Proof.
  intros [Ho Hd]. split; simpl; [done|]. by rewrite lookup_insert_eq.
Qed.

Lemma instance_after_clean s self o :
  objs s !! self = Some o ->
  instance_at (snd (clean_headers self s)) self
    (with_headers (fresh (dom (dicts s))) o) ∅.
Proof.
  intros Ho. rewrite (clean_headers_eq _ _ _ Ho). split; simpl.
  - by rewrite lookup_insert_eq.
  - by rewrite lookup_insert_eq.
Qed.

Lemma answers_param_headers self key v s :
  answers self key v s -> fst (param_headers self key s) = Ret v.
Proof.
  intros (o & d & [Ho Hd] & Hv).
  by rewrite (param_headers_eq _ _ _ _ _ Ho Hd), <- Hv.
Qed.

Lemma snd_getattr {A} self (field : ConnectionManager -> A) s :
  snd (getattr self field s) = s.
Proof. unfold getattr. by destruct (objs s !! self). Qed.

Lemma snd_param_headers self key s : snd (param_headers self key s) = s.
Proof.
  unfold_ops. destruct (objs s !! self) as [o|]; simpl; [|done].
  by destruct (dicts s !! _headers o).
Qed.

Lemma snd_exist_param_headers self key s :
  snd (exist_param_headers self key s) = s.
Proof.
  unfold_ops. destruct (objs s !! self) as [o|]; simpl; [|done].
  by destruct (dicts s !! _headers o).
Qed.

Lemma answers_with_objs self key v s j oj :
  answers self key v s ->
  (j = self -> forall o, objs s !! self = Some o -> _headers oj = _headers o) ->
  answers self key v (with_objs (insert j oj) s).
Proof.
  intros (o & d & [Ho Hd] & Hv) Hj.
  destruct (decide (j = self)) as [->|Hne].
  - exists oj, d. repeat split; simpl; [by rewrite lookup_insert_eq| |done].
    by rewrite (Hj eq_refl o Ho).
  - exists o, d. repeat split; simpl; [by rewrite lookup_insert_ne|done|done].
Qed.

Lemma answers_setattr self key v s j upd :
  answers self key v s ->
  (j = self -> forall o, _headers (upd o) = _headers o) ->
  answers self key v (snd (setattr j upd s)).
Proof.
  intros Ha Hj. unfold setattr.
  destruct (objs s !! j) as [oj|] eqn:Hoj; simpl; [|done].
  apply answers_with_objs; [done|].
  intros -> o Ho. rewrite Hoj in Ho. injection Ho as <-. by apply Hj.
Qed.

Lemma answers_new_dict self key v s d0 :
  answers self key v s ->
  answers self key v (with_dicts (insert (fresh (dom (dicts s))) d0) s).
Proof.
  intros (o & d & [Ho Hd] & Hv). exists o, d. repeat split; simpl; try done.
  rewrite lookup_insert_ne; [done|].
  intros Heq. pose proof (fresh_dict_not_allocated s) as Hf.
  rewrite Heq in Hf. congruence.
Qed.

Lemma answers_dict_write self key v s l dl dl' :
  answers self key v s ->
  dicts s !! l = Some dl ->
  (headers_ref s self = Some l -> dl' !! key = dl !! key) ->
  answers self key v (with_dicts (insert l dl') s).
Proof.
  intros (o & d & [Ho Hd] & Hv) Hl Hsame.
  destruct (decide (l = _headers o)) as [->|Hne].
  - exists o, dl'. repeat split; simpl; [done|by rewrite lookup_insert_eq|].
    rewrite Hsame; [congruence|]. unfold headers_ref. by rewrite Ho.
  - exists o, d. repeat split; simpl; [done| |done].
    by rewrite lookup_insert_ne.
Qed.

Lemma answers_keeps_store {A} self key v (m : M A) s :
  keeps_store m -> answers self key v s -> answers self key v (snd (m s)).
Proof.
  intros Hm (o & d & [Ho Hd] & Hv). specialize (Hm s).
  unfold store in Hm. injection Hm as Hdi Hob _.
  exists o, d. unfold instance_at. by rewrite Hdi, Hob.
Qed.

(** One call that does not disturb [param_headers(key)] on [self] leaves
    its answer as it was. *)
Lemma exec_keeps_answer self key v s c :
  answers self key v s -> ~ disturbs self key s c ->
  answers self key v (exec c s).
Proof.
  intros Ha Hnd. destruct c; simpl in *.
  - (* NewDict *) by apply answers_new_dict.
  - (* Init *)
    unfold init. simpl. apply answers_with_objs; [done|].
    intros <- o Ho. by rewrite fresh_obj_not_allocated in Ho.
  - unfold base_url. by rewrite snd_getattr.
  - apply answers_setattr; done.
  - unfold timeout. by rewrite snd_getattr.
  - apply answers_setattr; done.
  - unfold verify. by rewrite snd_getattr.
  - apply answers_setattr; done.
  - unfold headers. by rewrite snd_getattr.
  - (* SetHeaders *) apply answers_setattr; [done|]. intros ->. by destruct Hnd.
  - by rewrite snd_param_headers.
  - (* CleanHeaders *)
    unfold clean_headers, bind, new_dict. simpl.
    apply answers_setattr; [by apply answers_new_dict|].
    intros ->. by destruct Hnd.
  - by rewrite snd_exist_param_headers.
  - (* AddParamHeaders *)
    unfold_ops. destruct (objs s !! self0) as [oj|] eqn:Hoj; simpl; [|done].
    destruct (dicts s !! _headers oj) as [dj|] eqn:Hdj; simpl; [|done].
    apply (answers_dict_write _ _ _ _ _ dj); [done|done|].
    intros Href. apply lookup_insert_ne. intros ->. apply Hnd. split; [done|].
    unfold headers_ref in *. by rewrite Hoj, Href.
  - (* DelParamHeaders *)
    unfold_ops. destruct (objs s !! self0) as [oj|] eqn:Hoj; simpl; [|done].
    destruct (dicts s !! _headers oj) as [dj|] eqn:Hdj; simpl; [|done].
    apply (answers_dict_write _ _ _ _ _ dj); [done|done|].
    intros Href. apply lookup_delete_ne. intros ->. apply Hnd. split; [done|].
    unfold headers_ref in *. by rewrite Hoj, Href.
  - by apply answers_keeps_store; [apply raw_get_store|].
  - by apply answers_keeps_store; [apply raw_post_store|].
  - by apply answers_keeps_store; [apply raw_put_store|].
  - by apply answers_keeps_store; [apply raw_delete_store|].
Qed.

Lemma exec_all_keeps_answer self key v cs : forall s,
  answers self key v s -> undisturbed self key s cs ->
  answers self key v (exec_all cs s).
Proof.
  induction cs as [|c cs IH]; intros s Ha Hu; simpl in *; [done|].
  destruct Hu as [Hc Hu]. apply IH; [|done]. by apply exec_keeps_answer.
Qed.

(* =================================================================== *)
(** ** The header mapping of every instance stays a dict *)
(* =================================================================== *)

Lemma valid_with_dicts_insert s l d :
  headers_valid s -> headers_valid (with_dicts (insert l d) s).
Proof.
  intros [Hdef Hobj]. split; simpl.
  - apply lookup_insert_is_Some'. by right.
  - intros self o Ho. apply lookup_insert_is_Some'. right. by eapply Hobj.
Qed.

Lemma valid_with_objs_insert s j o :
  headers_valid s -> is_Some (dicts s !! _headers o) ->
  headers_valid (with_objs (insert j o) s).
Proof.
  intros [Hdef Hobj] Ho. split; simpl; [done|].
  intros self o' Hlook. destruct (decide (j = self)) as [->|Hne].
  - rewrite lookup_insert_eq in Hlook. by injection Hlook as <-.
  - rewrite lookup_insert_ne in Hlook by done. by eapply Hobj.
Qed.

Lemma valid_setattr s j upd :
  headers_valid s ->
  (forall o, objs s !! j = Some o -> is_Some (dicts s !! _headers (upd o))) ->
  headers_valid (snd (setattr j upd s)).
Proof.
  intros Hv Hupd. unfold setattr.
  destruct (objs s !! j) as [oj|] eqn:Hoj; simpl; [|done].
  apply valid_with_objs_insert; [done|]. by apply Hupd.
Qed.

Lemma valid_keeps_store {A} (m : M A) s :
  keeps_store m -> headers_valid s -> headers_valid (snd (m s)).
Proof.
  intros Hm [Hdef Hobj]. specialize (Hm s). unfold store in Hm.
  injection Hm as Hdi Hob Hde. unfold headers_valid.
  by rewrite Hdi, Hob, Hde.
Qed.

Lemma exec_keeps_valid s c :
  headers_valid s -> call_ok s c -> headers_valid (exec c s).
Proof.
  intros Hv Hok. pose proof Hv as [Hdef Hobj]. destruct c; simpl in *.
  - by apply valid_with_dicts_insert.
  - unfold init. simpl. apply valid_with_objs_insert; [done|]. simpl.
    by destruct headers0.
  - unfold base_url. by rewrite snd_getattr.
  - apply valid_setattr; [done|]. intros o Ho. simpl. by eapply Hobj.
  - unfold timeout. by rewrite snd_getattr.
  - apply valid_setattr; [done|]. intros o Ho. simpl. by eapply Hobj.
  - unfold verify. by rewrite snd_getattr.
  - apply valid_setattr; [done|]. intros o Ho. simpl. by eapply Hobj.
  - unfold headers. by rewrite snd_getattr.
  - apply valid_setattr; [done|]. intros o Ho. simpl. by destruct Hok.
  - by rewrite snd_param_headers.
  - unfold clean_headers, bind, new_dict. simpl.
    apply valid_setattr; [by apply valid_with_dicts_insert|].
    intros o Ho. simpl. by rewrite lookup_insert_eq.
  - by rewrite snd_exist_param_headers.
  - unfold_ops. destruct (objs s !! self) as [oj|] eqn:Hoj; simpl; [|done].
    destruct (dicts s !! _headers oj) as [dj|] eqn:Hdj; simpl; [|done].
    by apply valid_with_dicts_insert.
  - unfold_ops. destruct (objs s !! self) as [oj|] eqn:Hoj; simpl; [|done].
    destruct (dicts s !! _headers oj) as [dj|] eqn:Hdj; simpl; [|done].
    by apply valid_with_dicts_insert.
  - by apply valid_keeps_store; [apply raw_get_store|].
  - by apply valid_keeps_store; [apply raw_post_store|].
  - by apply valid_keeps_store; [apply raw_put_store|].
  - by apply valid_keeps_store; [apply raw_delete_store|].
Qed.

Lemma reachable_headers_valid s : reachable s -> headers_valid s.
Proof.
  induction 1 as [n|s c Hr IH Hok].
  - split; simpl.
    + by rewrite lookup_singleton_eq.
    + intros self o Ho. by rewrite lookup_empty in Ho.
  - by apply exec_keeps_valid.
Qed.

Lemma config_instance s self o d :
  instance_at s self o d ->
  config s self = Some (_base_url o, _headers o, d, _timeout o, _verify o).
Proof. intros [Ho Hd]. unfold config. rewrite Ho. simpl. by rewrite Hd. Qed.

Lemma config_keeps_store {A} (m : M A) s self :
  keeps_store m -> config (snd (m s)) self = config s self.
Proof.
  intros Hm. specialize (Hm s). unfold store in Hm.
  injection Hm as Hdi Hob _. unfold config. by rewrite Hdi, Hob.
Qed.

Lemma setattr_eq s self o upd :
  objs s !! self = Some o ->
  setattr self upd s = (Ret tt, with_objs (insert self (upd o)) s).
Proof. intros Ho. unfold setattr. by rewrite Ho. Qed.

(* =================================================================== *)
(** ** The properties of the header operations *)
(* =================================================================== *)

(** C3 (amended): after [add_param_headers(key, value)],
    [param_headers(key)] returns [value], and it still returns [value]
    after any sequence of calls (on this or any other instance) none of
    which writes or deletes [key] in the dict this instance uses, or
    gives this instance another dict through [clean_headers] or the
    [headers] setter. *)
Theorem added_header_persists s self o d key value cs :
  instance_at s self o d ->
  undisturbed self key (snd (add_param_headers self key value s)) cs ->
  fst (add_param_headers self key value s) = Ret tt /\
  fst (param_headers self key (snd (add_param_headers self key value s)))
  = Ret value /\
  fst (param_headers self key
         (exec_all cs (snd (add_param_headers self key value s))))
  = Ret value.
Proof.
  intros Hi Hu. pose proof Hi as [Ho Hd].
  assert (Ha : answers self key value
                 (snd (add_param_headers self key value s))).
  { rewrite (add_param_headers_eq _ _ _ _ _ _ Ho Hd). simpl.
    exists o, (<[key := value]> d). split.
    - by apply (instance_after_dict_write _ _ _ d).
    - by rewrite lookup_insert_eq. }
  split; [by rewrite (add_param_headers_eq _ _ _ _ _ _ Ho Hd)|].
  split; [by apply answers_param_headers|].
  apply answers_param_headers. by apply exec_all_keeps_answer.
Qed.

(** C5 (amended): in every reachable state the [headers] attribute of
    every instance refers to a dict; [add_param_headers] and
    [del_param_headers] write to that dict object and leave the
    attribute pointing at it; [clean_headers] points the attribute at a
    new, empty dict object and leaves every dict that existed before,
    the previous header mapping among them, as it was. *)
Theorem headers_valid_and_how_mutated :
  (forall s, reachable s -> headers_valid s) /\
  (forall s self o d key value,
      instance_at s self o d ->
      headers_ref (snd (add_param_headers self key value s)) self
      = Some (_headers o) /\
      dicts (snd (add_param_headers self key value s))
      = <[_headers o := <[key := value]> d]> (dicts s)) /\
  (forall s self o d key,
      instance_at s self o d ->
      headers_ref (snd (del_param_headers self key s)) self
      = Some (_headers o) /\
      dicts (snd (del_param_headers self key s))
      = <[_headers o := delete key d]> (dicts s)) /\
  (forall s self o d,
      instance_at s self o d ->
      exists l,
        headers_ref (snd (clean_headers self s)) self = Some l /\
        l <> _headers o /\
        dicts s !! l = None /\
        dicts (snd (clean_headers self s)) = <[l := ∅]> (dicts s) /\
        dicts (snd (clean_headers self s)) !! _headers o = Some d).
Proof.
  split; [exact reachable_headers_valid|].
  split; [|split].
  - intros s self o d key value [Ho Hd].
    rewrite (add_param_headers_eq _ _ _ _ _ _ Ho Hd). simpl.
    unfold headers_ref. simpl. by rewrite Ho.
  - intros s self o d key [Ho Hd].
    rewrite (del_param_headers_eq _ _ _ _ _ Ho Hd). simpl.
    unfold headers_ref. simpl. by rewrite Ho.
  - intros s self o d [Ho Hd]. exists (fresh (dom (dicts s))).
    rewrite (clean_headers_eq _ _ _ Ho). simpl.
    pose proof (fresh_dict_not_allocated s) as Hf.
    assert (fresh (dom (dicts s)) <> _headers o) as Hne.
    { intros Heq. rewrite Heq in Hf. congruence. }
    unfold headers_ref. simpl. rewrite lookup_insert_eq. simpl.
    repeat split; try done. by rewrite lookup_insert_ne.
Qed.

(** C6: [del_param_headers(key)] returns normally whatever the header
    mapping holds, [key] present or not; afterwards [param_headers(key)]
    returns [None], and the other keys hold what they held. *)
Theorem del_param_headers_removes s self o d key :
  instance_at s self o d ->
  fst (del_param_headers self key s) = Ret tt /\
  fst (param_headers self key (snd (del_param_headers self key s)))
  = Ret PyNone /\
  headers_of (snd (del_param_headers self key s)) self = Some (delete key d) /\
  forall k, k <> key ->
    fst (param_headers self k (snd (del_param_headers self key s)))
    = fst (param_headers self k s).
Proof.
  intros Hi. pose proof Hi as [Ho Hd].
  rewrite (del_param_headers_eq _ _ _ _ _ Ho Hd). simpl.
  pose proof (instance_after_dict_write _ _ _ _ (delete key d) Hi) as Hi'.
  pose proof Hi' as [Ho' Hd'].
  split; [done|]. split; [|split].
  - rewrite (param_headers_eq _ _ _ _ _ Ho' Hd'). simpl.
    by rewrite lookup_delete_eq.
  - by (eapply headers_of_instance; eassumption).
  - intros k Hk. rewrite (param_headers_eq _ _ _ _ _ Ho' Hd').
    rewrite (param_headers_eq _ _ _ _ _ Ho Hd). simpl.
    by rewrite lookup_delete_ne.
Qed.

(** C7: after [clean_headers()] the header mapping is empty, and
    [exist_param_headers(key)] returns [False] for every [key]. *)
Theorem clean_headers_empties s self o :
  objs s !! self = Some o ->
  fst (clean_headers self s) = Ret tt /\
  headers_of (snd (clean_headers self s)) self = Some ∅ /\
  forall key,
    fst (exist_param_headers self key (snd (clean_headers self s)))
    = Ret false.
Proof.
  intros Ho. pose proof (instance_after_clean _ _ _ Ho) as Hi.
  pose proof Hi as [Ho' Hd'].
  split; [by rewrite (clean_headers_eq _ _ _ Ho)|].
  split; [by (eapply headers_of_instance; eassumption)|].
  intros key. rewrite (exist_param_headers_eq _ _ _ _ _ Ho' Hd').
  simpl. by rewrite lookup_empty.
Qed.

(** C8: [exist_param_headers(key)] returns [True] exactly when
    [param_headers(key)] returns something other than [None]; neither
    call changes the state. *)
Theorem exist_iff_param_not_None s self o d key :
  instance_at s self o d ->
  exists v b,
    param_headers self key s = (Ret v, s) /\
    exist_param_headers self key s = (Ret b, s) /\
    (b = true <-> v <> PyNone).
Proof.
  intros [Ho Hd]. exists (default PyNone (d !! key)).
  exists (negb (bool_decide (default PyNone (d !! key) = PyNone))).
  split; [by apply (param_headers_eq _ _ o)|].
  split; [by apply (exist_param_headers_eq _ _ o)|].
  case_bool_decide as Hv; simpl; split; done.
Qed.

(** C10: after [add_param_headers(key, None)] the key is in the dict,
    with value [None], yet [param_headers(key)] returns [None] and
    [exist_param_headers(key)] returns [False], the very answers given
    once the key has been deleted. *)
Theorem None_header_reads_as_missing s self o d key :
  instance_at s self o d ->
  let s1 := snd (add_param_headers self key PyNone s) in
  let s2 := snd (del_param_headers self key s) in
  (exists d1, headers_of s1 self = Some d1 /\ d1 !! key = Some PyNone) /\
  (exists d2, headers_of s2 self = Some d2 /\ d2 !! key = None) /\
  fst (param_headers self key s1) = Ret PyNone /\
  fst (exist_param_headers self key s1) = Ret false /\
  fst (param_headers self key s2) = Ret PyNone /\
  fst (exist_param_headers self key s2) = Ret false.
Proof.
  intros Hi s1 s2. pose proof Hi as [Ho Hd]. subst s1 s2.
  rewrite (add_param_headers_eq _ _ _ _ _ _ Ho Hd).
  rewrite (del_param_headers_eq _ _ _ _ _ Ho Hd). simpl.
  pose proof (instance_after_dict_write _ _ _ _ (<[key := PyNone]> d) Hi)
    as Hi1.
  pose proof (instance_after_dict_write _ _ _ _ (delete key d) Hi) as Hi2.
  pose proof Hi1 as [Ho1 Hd1]. pose proof Hi2 as [Ho2 Hd2].
  split; [|split].
  - exists (<[key := PyNone]> d).
    split; [by (eapply headers_of_instance; eassumption)|]. by rewrite lookup_insert_eq.
  - exists (delete key d).
    split; [by (eapply headers_of_instance; eassumption)|]. by rewrite lookup_delete_eq.
  - rewrite (param_headers_eq _ _ _ _ _ Ho1 Hd1).
    rewrite (exist_param_headers_eq _ _ _ _ _ Ho1 Hd1).
    rewrite (param_headers_eq _ _ _ _ _ Ho2 Hd2).
    rewrite (exist_param_headers_eq _ _ _ _ _ Ho2 Hd2). simpl.
    by rewrite lookup_insert_eq, lookup_delete_eq.
Qed.

(* =================================================================== *)
(** ** Construction: the default header mapping *)
(* =================================================================== *)

(** C4 (the code departs from the claim): an instance constructed
    without [headers] gets the one dict [default_headers]; two such
    instances refer to the same dict object, and a header added through
    the first is answered by [param_headers] and [exist_param_headers]
    on the second. *)
Theorem default_headers_are_shared (n : Net) :
  (forall s b t v p,
      exists self,
        fst (init b None t v p s) = Ret self /\
        headers_ref (snd (init b None t v p s)) self
        = Some (default_headers s) /\
        default_headers (snd (init b None t v p s)) = default_headers s) /\
  let s2 := snd (init "http://host/api/" None None None None
               (snd (init "http://host/api/" None None None None
                       (module_loaded n)))) in
let s3 := snd (add_param_headers 1 "X-Token" (PyStr "abc") s2) in
headers_ref s2 1 = Some 1%positive /\
  headers_ref s2 2 = Some 1%positive /\
  fst (param_headers 2 "X-Token" s2) = Ret PyNone /\
  fst (exist_param_headers 2 "X-Token" s2) = Ret false /\
  fst (param_headers 2 "X-Token" s3) = Ret (PyStr "abc") /\
  fst (exist_param_headers 2 "X-Token" s3) = Ret true.
Proof.
  split.
  - intros s b t v p. exists (fresh (dom (objs s))).
    unfold init, headers_ref. simpl. by rewrite lookup_insert_eq.
  - vm_compute. repeat split; reflexivity.
Qed.

(* =================================================================== *)
(** ** Setters and verb methods: what they leave alone *)
(* =================================================================== *)

(** C9: each setter changes its own field of the configuration and no
    other; each verb method leaves the configuration, and the whole
    store, as it was, whatever the outcome of the call. *)
Theorem setters_and_requests_frame s self o d :
  instance_at s self o d ->
  (forall value,
      fst (set_base_url self value s) = Ret tt /\
      config (snd (set_base_url self value s)) self
      = Some (value, _headers o, d, _timeout o, _verify o)) /\
  (forall value,
      fst (set_timeout self value s) = Ret tt /\
      config (snd (set_timeout self value s)) self
      = Some (_base_url o, _headers o, d, value, _verify o)) /\
  (forall value,
      fst (set_verify self value s) = Ret tt /\
      config (snd (set_verify self value s)) self
      = Some (_base_url o, _headers o, d, _timeout o, value)) /\
  (forall value d',
      dicts s !! value = Some d' ->
      fst (set_headers self value s) = Ret tt /\
      config (snd (set_headers self value s)) self
      = Some (_base_url o, value, d', _timeout o, _verify o)) /\
  (forall path kwargs,
      store (snd (raw_get self path kwargs s)) = store s /\
      config (snd (raw_get self path kwargs s)) self = config s self) /\
  (forall path data kwargs,
      store (snd (raw_post self path data kwargs s)) = store s /\
      config (snd (raw_post self path data kwargs s)) self = config s self) /\
  (forall path data kwargs,
      store (snd (raw_put self path data kwargs s)) = store s /\
      config (snd (raw_put self path data kwargs s)) self = config s self) /\
  (forall path data kwargs,
      store (snd (raw_delete self path data kwargs s)) = store s /\
      config (snd (raw_delete self path data kwargs s)) self = config s self).
Proof.
  intros [Ho Hd].
  assert (Hset : forall upd,
             _headers (upd o) = _headers o ->
             fst (setattr self upd s) = Ret tt /\
             config (snd (setattr self upd s)) self
             = Some (_base_url (upd o), _headers o, d,
                     _timeout (upd o), _verify (upd o))).
  { intros upd Hh. rewrite (setattr_eq _ _ _ _ Ho). split; [done|].
    unfold config. simpl. rewrite lookup_insert_eq. simpl.
    by rewrite Hh, Hd. }
  repeat split.
  - apply (Hset (with_base_url value)). done.
  - unfold set_base_url. by destruct (Hset (with_base_url value) eq_refl).
  - apply (Hset (with_timeout value)). done.
  - unfold set_timeout. by destruct (Hset (with_timeout value) eq_refl).
  - apply (Hset (with_verify value)). done.
  - unfold set_verify. by destruct (Hset (with_verify value) eq_refl).
  - unfold set_headers. by rewrite (setattr_eq _ _ _ _ Ho).
  - unfold set_headers. rewrite (setattr_eq _ _ _ _ Ho).
    unfold config. simpl. rewrite lookup_insert_eq. simpl. by rewrite H.
  - apply raw_get_store.
  - apply (config_keeps_store _ _ _ (raw_get_store _ _ _)).
  - apply raw_post_store.
  - apply (config_keeps_store _ _ _ (raw_post_store _ _ _ _)).
  - apply raw_put_store.
  - apply (config_keeps_store _ _ _ (raw_put_store _ _ _ _)).
  - apply raw_delete_store.
  - apply (config_keeps_store _ _ _ (raw_delete_store _ _ _ _)).
Qed.

(* =================================================================== *)
(** ** Verb methods: the request and the error policy *)
(* =================================================================== *)

Lemma relay_relayed_once s o hd method url kwargs data :
  relayed_once s (_s o) (request_of o hd method url kwargs data)
    (relay o hd method url kwargs data s).
Proof.
  unfold relayed_once, relay.
  destruct (send _ _ _) as [[r|e|] n] eqn:Hsend; simpl.
  - split; [done|]. split; [done|].
    split; [by intros r' [= ->]|by intros e' ?].
  - destruct (exc_is_Exception e) eqn:He; simpl;
      (split; [done|]); (split; [done|]); (split; [by intros r' ?|]).
    + by intros e' [= <-] _.
    + intros e' [= <-] He'. congruence.
  - split; [done|]. split; [done|]. split; [by intros ? ?|by intros ? ?].
Qed.

Lemma verbs_relayed_once s self o hd path kwargs data odata url :
  instance_at s self o hd ->
  UrlLib.urljoin check_bracketed_host nfkc (_base_url o) path true = Ret url ->
  relayed_once s (_s o) (request_of o hd GET url kwargs None)
    (raw_get self path kwargs s) /\
  relayed_once s (_s o) (request_of o hd POST url kwargs (Some data))
    (raw_post self path data kwargs s) /\
  relayed_once s (_s o) (request_of o hd PUT url kwargs (Some data))
    (raw_put self path data kwargs s) /\
  relayed_once s (_s o)
    (request_of o hd DELETE url kwargs (Some (delete_data odata)))
    (raw_delete self path odata kwargs s).
Proof.
  intros [Ho Hd] Hurl.
  rewrite (raw_get_eq _ _ _ _ _ _ Ho Hd), (raw_post_eq _ _ _ _ _ _ _ Ho Hd),
    (raw_put_eq _ _ _ _ _ _ _ Ho Hd), (raw_delete_eq _ _ _ _ _ _ _ Ho Hd).
  rewrite Hurl. simpl. repeat split; apply relay_relayed_once.
Qed.

(** An exception that does not derive from [Exception] is not caught:
    it leaves the method as it came. *)
Lemma raw_get_passes_base_exception s self o hd path kwargs url e :
  instance_at s self o hd ->
  UrlLib.urljoin check_bracketed_host nfkc (_base_url o) path true = Ret url ->
  fst (send (_s o) (request_of o hd GET url kwargs None) (net s)) = Raise e ->
  exc_is_Exception e = false ->
  fst (raw_get self path kwargs s) = Raise e.
Proof.
  intros [Ho Hd] Hurl Hsend He.
  rewrite (raw_get_eq _ _ _ _ _ _ Ho Hd), Hurl. simpl. unfold relay.
  by rewrite Hsend, He.
Qed.

(** C2 (amended): when the transport raises an exception that derives
    from [Exception], each verb method raises one [Exception] whose text
    is [Can't connect to server (...)] around the text of the cause, the
    same for every class of cause; an exception that derives from
    [BaseException] only, such as [KeyboardInterrupt], leaves the method
    as it came, unwrapped; the request has been handed to the session
    exactly once; a response, of any status code, is returned as it
    is. *)
Theorem transport_failure_is_wrapped s self o hd path kwargs data odata url :
  instance_at s self o hd ->
  UrlLib.urljoin check_bracketed_host nfkc (_base_url o) path true = Ret url ->
  relayed_once s (_s o) (request_of o hd GET url kwargs None)
    (raw_get self path kwargs s) /\
  relayed_once s (_s o) (request_of o hd POST url kwargs (Some data))
    (raw_post self path data kwargs s) /\
  relayed_once s (_s o) (request_of o hd PUT url kwargs (Some data))
    (raw_put self path data kwargs s) /\
  relayed_once s (_s o)
    (request_of o hd DELETE url kwargs (Some (delete_data odata)))
    (raw_delete self path odata kwargs s) /\
  (forall e,
      exc_is_Exception e = false ->
      (fst (send (_s o) (request_of o hd GET url kwargs None) (net s))
       = Raise e ->
       fst (raw_get self path kwargs s) = Raise e) /\
      (fst (send (_s o) (request_of o hd POST url kwargs (Some data)) (net s))
       = Raise e ->
       fst (raw_post self path data kwargs s) = Raise e) /\
      (fst (send (_s o) (request_of o hd PUT url kwargs (Some data)) (net s))
       = Raise e ->
       fst (raw_put self path data kwargs s) = Raise e) /\
      (fst (send (_s o) (request_of o hd DELETE url kwargs
                           (Some (delete_data odata))) (net s)) = Raise e ->
       fst (raw_delete self path odata kwargs s) = Raise e)).
Proof.
  intros Hi Hurl.
  destruct (verbs_relayed_once s self o hd path kwargs data odata url Hi Hurl)
    as (Hget & Hpost & Hput & Hdel).
  repeat (split; [assumption|]).
  intros e He. destruct Hi as [Ho Hd].
  rewrite (raw_get_eq _ _ _ _ _ _ Ho Hd), (raw_post_eq _ _ _ _ _ _ _ Ho Hd),
    (raw_put_eq _ _ _ _ _ _ _ Ho Hd), (raw_delete_eq _ _ _ _ _ _ _ Ho Hd).
  rewrite Hurl. simpl. unfold relay.
  repeat split; intros Hs; by rewrite Hs, He.
Qed.

(* =================================================================== *)
(** ** [urljoin]: references that start with [/] or carry a scheme *)
(* =================================================================== *)

Lemma split1_head c a r :
  Ascii.eqb a c = false ->
  exists p q, PyStr.split1 c (String a r) = (String a p, q).
Proof.
  intros Hac. unfold PyStr.split1. simpl. rewrite Hac.
  destruct (PyStr.find c r) as [i|]; simpl; eauto.
Qed.

Lemma splitparams_head p :
  exists p' q, UrlLib.splitparams (String "/" p) = (String "/" p', q).
Proof.
  unfold UrlLib.splitparams. simpl.
  destruct (PyStr.rfind "/" p) as [j|] eqn:Hj.
  - unfold PyStr.find_from. simpl.
    destruct (PyStr.find ";" (PyStr.drop j p)) as [i|]; simpl; eauto.
  - unfold PyStr.find_from. simpl.
    destruct (PyStr.find ";" p) as [i|]; simpl; eauto.
Qed.

Lemma rooted_nonempty url : UrlLib.rooted url = true -> PyStr.nonempty url = true.
Proof. by destruct url. Qed.

(** [urlparse] on a rooted reference: no scheme of its own, no network
    location, a path that starts with [/]. *)
Lemma urlparse_rooted url sch af :
  UrlLib.rooted url = true ->
  exists sch' p pa q f,
    UrlLib.urlparse check_bracketed_host nfkc url sch af
    = Ret (UrlLib.mk_parse sch' "" (String "/" p) pa q f).
Proof.
  unfold UrlLib.rooted. intros Hr.
  unfold UrlLib.urlparse, UrlLib.urlsplit.
  fold (UrlLib.cleaned url).
  destruct (UrlLib.cleaned url) as [|a r]; [done|].
  apply andb_prop in Hr as [Ha Hr].
  apply Ascii.eqb_eq in Ha as ->.
  set (sch0 := fold_left _ _ (PyStr.strip _ sch)).
  assert (Hscheme :
    match PyStr.find ":" (String "/" r), String "/" r with
    | Some (S i'), String c0 _ =>
        if PyStr.isascii c0 && PyStr.isalpha c0
        then if PyStr.all_chars
                  (fun c => PyStr.contains c UrlLib.scheme_chars)
                  (PyStr.take (S i') (String "/" r))
             then (PyStr.lower (PyStr.take (S i') (String "/" r)),
                   PyStr.drop (S (S i')) (String "/" r))
             else (sch0, String "/" r)
        else (sch0, String "/" r)
    | _, _ => (sch0, String "/" r)
    end = (sch0, String "/" r)).
  { simpl. destruct (PyStr.find ":" r); reflexivity. }
  rewrite Hscheme. clear Hscheme.
  assert (Hnl : String.eqb (PyStr.take 2 (String "/" r)) "//" = false).
  { destruct r as [|c r']; [done|]. simpl in *.
    apply negb_true_iff in Hr. by rewrite Hr. }
  rewrite Hnl. simpl obind.
  assert (exists p1 f, (if af && PyStr.contains "#" r
                        then PyStr.split1 "#" (String "/" r)
                        else (String "/" r, "")) = (String "/" p1, f))
    as (p1 & f & ->).
  { destruct (af && _); [by apply split1_head | eauto]. }
  simpl.
  assert (exists p2 q, (if PyStr.contains "?" p1
                        then PyStr.split1 "?" (String "/" p1)
                        else (String "/" p1, "")) = (String "/" p2, q))
    as (p2 & q & ->).
  { destruct (PyStr.contains _ _); [by apply split1_head | eauto]. }
  simpl.
  match goal with
  | |- context [if ?c then UrlLib.splitparams _ else _] => destruct c
  end.
  - destruct (splitparams_head p2) as (p3 & pa & ->). eauto 10.
  - eauto 10.
Qed.

(** With a rooted reference the result of [urljoin] depends on the
    base only through its scheme and its network location. *)
Lemma urljoin_rooted base1 base2 b1 b2 url :
  PyStr.nonempty base1 = true -> PyStr.nonempty base2 = true ->
  UrlLib.urlparse check_bracketed_host nfkc base1 "" true = Ret b1 ->
  UrlLib.urlparse check_bracketed_host nfkc base2 "" true = Ret b2 ->
  UrlLib.scheme b1 = UrlLib.scheme b2 ->
  UrlLib.netloc b1 = UrlLib.netloc b2 ->
  UrlLib.rooted url = true ->
  UrlLib.urljoin check_bracketed_host nfkc base1 url true
  = UrlLib.urljoin check_bracketed_host nfkc base2 url true.
Proof.
  intros Hn1 Hn2 Hb1 Hb2 Hs Hnl Hr. unfold UrlLib.urljoin.
  rewrite Hn1, Hn2, (rooted_nonempty _ Hr), Hb1, Hb2. simpl.
  destruct b1 as [s1 n1 p1 pa1 q1 f1], b2 as [s2 n2 p2 pa2 q2 f2].
  simpl in Hs, Hnl. subst s2 n2.
  destruct (urlparse_rooted url s1 true Hr) as (sch' & p & pa & q & f & ->).
  simpl. reflexivity.
Qed.

(** A reference whose scheme is not the scheme of the base is the
    result of [urljoin], as it was given. *)
Lemma urljoin_other_scheme base url b u :
  PyStr.nonempty base = true -> PyStr.nonempty url = true ->
  UrlLib.urlparse check_bracketed_host nfkc base "" true = Ret b ->
  UrlLib.urlparse check_bracketed_host nfkc url (UrlLib.scheme b) true = Ret u ->
  UrlLib.scheme u <> UrlLib.scheme b ->
  UrlLib.urljoin check_bracketed_host nfkc base url true = Ret url.
Proof.
  intros Hn1 Hn2 Hb Hu Hne. unfold UrlLib.urljoin.
  rewrite Hn1, Hn2, Hb. simpl. destruct b as [bs bn bp bpa bq bf].
  simpl in *. rewrite Hu. simpl. destruct u as [us un up upa uq uf].
  simpl in *. apply String.eqb_neq in Hne. by rewrite Hne.
Qed.

Lemma uses_relative_netloc sch :
  PyStr.in_list sch UrlLib.uses_relative = true ->
  PyStr.in_list sch UrlLib.uses_netloc = true.
Proof.
  unfold PyStr.in_list, UrlLib.uses_relative. simpl. intros H.
  repeat (apply orb_prop in H as [H|H];
          [apply String.eqb_eq in H; subst sch; reflexivity|]).
  discriminate H.
Qed.

Local Opaque PyStr.in_list.

(** Whenever the reference has another scheme than the base, a network
    location, or a path component that starts with [/], the result of
    [urljoin] depends on the base only through its scheme and its
    network location: nothing of the path of the base is left. *)
Lemma urljoin_replaces_base_path base1 base2 b1 b2 url u :
  PyStr.nonempty base1 = true -> PyStr.nonempty base2 = true ->
  PyStr.nonempty url = true ->
  UrlLib.urlparse check_bracketed_host nfkc base1 "" true = Ret b1 ->
  UrlLib.urlparse check_bracketed_host nfkc base2 "" true = Ret b2 ->
  UrlLib.scheme b1 = UrlLib.scheme b2 ->
  UrlLib.netloc b1 = UrlLib.netloc b2 ->
  UrlLib.urlparse check_bracketed_host nfkc url (UrlLib.scheme b1) true
  = Ret u ->
  UrlLib.replaces_base_path (UrlLib.scheme b1) u = true ->
  UrlLib.urljoin check_bracketed_host nfkc base1 url true
  = UrlLib.urljoin check_bracketed_host nfkc base2 url true.
Proof.
  intros Hn1 Hn2 Hnu Hb1 Hb2 Hs Hnl Hu Hr. unfold UrlLib.urljoin.
  rewrite Hn1, Hn2, Hnu, Hb1, Hb2. simpl.
  destruct b1 as [s1 n1 p1 pa1 q1 f1], b2 as [s2 n2 p2 pa2 q2 f2].
  simpl in Hs, Hnl, Hu, Hr. subst s2 n2. rewrite Hu. simpl.
  destruct u as [us un up upa uq uf].
  unfold UrlLib.replaces_base_path in Hr. simpl in Hr.
  destruct (negb (String.eqb us s1)
            || negb (PyStr.in_list us UrlLib.uses_relative)) eqn:Hc1; [done|].
  simpl in Hr.
  apply orb_false_elim in Hc1 as [_ Hrel]. apply negb_false_iff in Hrel.
  rewrite (uses_relative_netloc _ Hrel). simpl.
  destruct (PyStr.nonempty un) eqn:Hun; [done|]. simpl in Hr.
  destruct up as [|c up']; [done|]. simpl in Hr.
  apply Ascii.eqb_eq in Hr as ->. simpl. reflexivity.
Qed.

(** A reference with the scheme of the base, no network location, no
    path and no params keeps the path and the params of the base. *)
Lemma urljoin_no_path base url b u :
  PyStr.nonempty base = true -> PyStr.nonempty url = true ->
  UrlLib.urlparse check_bracketed_host nfkc base "" true = Ret b ->
  UrlLib.urlparse check_bracketed_host nfkc url (UrlLib.scheme b) true = Ret u ->
  UrlLib.scheme u = UrlLib.scheme b ->
  PyStr.in_list (UrlLib.scheme u) UrlLib.uses_relative = true ->
  UrlLib.netloc u = "" -> UrlLib.path u = "" -> UrlLib.params u = "" ->
  UrlLib.urljoin check_bracketed_host nfkc base url true
  = Ret (UrlLib.urlunparse
           (UrlLib.mk_parse (UrlLib.scheme b) (UrlLib.netloc b) (UrlLib.path b)
              (UrlLib.params b)
              (if PyStr.nonempty (UrlLib.query u) then UrlLib.query u
               else UrlLib.query b)
              (UrlLib.fragment u))).
Proof.
  intros Hn1 Hn2 Hb Hu Hs Hrel Hnl Hp Hpa. unfold UrlLib.urljoin.
  rewrite Hn1, Hn2, Hb. simpl. destruct b as [bs bn bp bpa bq bf].
  simpl in *. rewrite Hu. simpl. destruct u as [us un up upa uq uf].
  simpl in *. subst us un up upa.
  rewrite String.eqb_refl, Hrel, (uses_relative_netloc _ Hrel). simpl.
  by destruct (PyStr.nonempty uq).
Qed.

Local Transparent PyStr.in_list.

Lemma raw_get_wire s self o hd path kwargs url :
  instance_at s self o hd ->
  UrlLib.urljoin check_bracketed_host nfkc (_base_url o) path true = Ret url ->
  wire (snd (raw_get self path kwargs s))
  = wire s ++ [request_of o hd GET url kwargs None].
Proof.
  intros Hi Hurl.
  by destruct (verbs_relayed_once s self o hd path kwargs DataNone None url
                 Hi Hurl) as ([? _] & _).
Qed.

(** C1 (amended): every verb method hands the session one request
    whose URL is [urljoin(base_url, path)]. With base URL
    [http://host/api/], [raw_get("/foo")] targets [http://host/foo] (it
    is [raw_get("foo")] that targets [http://host/api/foo]) and
    [raw_get("/bar")] targets [http://host/bar]. A path replaces the
    path of the base entirely whenever, as [urlparse] reads it, it has a
    scheme that is not the scheme of the base, or a network location, or
    a path component that starts with [/]: every path that starts with
    one [/], a path such as [//other/x], [///x], [http://other/x] or
    [http:/x]; a path of another scheme is the target as given. The
    paths left over have the scheme of the base (or none), no network
    location and a path component that does not start with [/], as [//]
    and [http:foo]: they are resolved against the path of the base, which
    is kept as it is when they have no path and no params. *)
Theorem target_url_is_urljoin :
  (forall s self o hd path kwargs data odata url,
      instance_at s self o hd ->
      UrlLib.urljoin check_bracketed_host nfkc (_base_url o) path true
      = Ret url ->
      wire (snd (raw_get self path kwargs s))
      = wire s ++ [request_of o hd GET url kwargs None] /\
      wire (snd (raw_post self path data kwargs s))
      = wire s ++ [request_of o hd POST url kwargs (Some data)] /\
      wire (snd (raw_put self path data kwargs s))
      = wire s ++ [request_of o hd PUT url kwargs (Some data)] /\
      wire (snd (raw_delete self path odata kwargs s))
      = wire s ++ [request_of o hd DELETE url kwargs
                     (Some (delete_data odata))]) /\
  (forall s self o hd kwargs,
      instance_at s self o hd ->
      _base_url o = "http://host/api/" ->
      wire (snd (raw_get self "/foo" kwargs s))
      = wire s ++ [request_of o hd GET "http://host/foo" kwargs None] /\
      wire (snd (raw_get self "foo" kwargs s))
      = wire s ++ [request_of o hd GET "http://host/api/foo" kwargs None] /\
      wire (snd (raw_get self "/bar" kwargs s))
      = wire s ++ [request_of o hd GET "http://host/bar" kwargs None]) /\
  (forall base1 base2 b1 b2 url u,
      PyStr.nonempty base1 = true -> PyStr.nonempty base2 = true ->
      PyStr.nonempty url = true ->
      UrlLib.urlparse check_bracketed_host nfkc base1 "" true = Ret b1 ->
      UrlLib.urlparse check_bracketed_host nfkc base2 "" true = Ret b2 ->
      UrlLib.scheme b1 = UrlLib.scheme b2 ->
      UrlLib.netloc b1 = UrlLib.netloc b2 ->
      UrlLib.urlparse check_bracketed_host nfkc url (UrlLib.scheme b1) true
      = Ret u ->
      UrlLib.replaces_base_path (UrlLib.scheme b1) u = true ->
      UrlLib.urljoin check_bracketed_host nfkc base1 url true
      = UrlLib.urljoin check_bracketed_host nfkc base2 url true) /\
  (forall base1 base2 b1 b2 url,
      PyStr.nonempty base1 = true -> PyStr.nonempty base2 = true ->
      UrlLib.urlparse check_bracketed_host nfkc base1 "" true = Ret b1 ->
      UrlLib.urlparse check_bracketed_host nfkc base2 "" true = Ret b2 ->
      UrlLib.scheme b1 = UrlLib.scheme b2 ->
      UrlLib.netloc b1 = UrlLib.netloc b2 ->
      UrlLib.rooted url = true ->
      UrlLib.urljoin check_bracketed_host nfkc base1 url true
      = UrlLib.urljoin check_bracketed_host nfkc base2 url true) /\
  (forall base url b u,
      PyStr.nonempty base = true -> PyStr.nonempty url = true ->
      UrlLib.urlparse check_bracketed_host nfkc base "" true = Ret b ->
      UrlLib.urlparse check_bracketed_host nfkc url (UrlLib.scheme b) true
      = Ret u ->
      UrlLib.scheme u <> UrlLib.scheme b ->
      UrlLib.urljoin check_bracketed_host nfkc base url true = Ret url) /\
  (forall base url b u,
      PyStr.nonempty base = true -> PyStr.nonempty url = true ->
      UrlLib.urlparse check_bracketed_host nfkc base "" true = Ret b ->
      UrlLib.urlparse check_bracketed_host nfkc url (UrlLib.scheme b) true
      = Ret u ->
      UrlLib.scheme u = UrlLib.scheme b ->
      PyStr.in_list (UrlLib.scheme u) UrlLib.uses_relative = true ->
      UrlLib.netloc u = "" -> UrlLib.path u = "" -> UrlLib.params u = "" ->
      UrlLib.urljoin check_bracketed_host nfkc base url true
      = Ret (UrlLib.urlunparse
               (UrlLib.mk_parse (UrlLib.scheme b) (UrlLib.netloc b)
                  (UrlLib.path b) (UrlLib.params b)
                  (if PyStr.nonempty (UrlLib.query u) then UrlLib.query u
                   else UrlLib.query b)
                  (UrlLib.fragment u)))).
Proof.
  split; [|split; [|split; [|split; [|split]]]].
  - intros s self o hd path kwargs data odata url Hi Hurl.
    destruct (verbs_relayed_once s self o hd path kwargs data odata url
                Hi Hurl) as ([? _] & [? _] & [? _] & [? _]).
    done.
  - intros s self o hd kwargs Hi Hb.
    split; [|split]; apply raw_get_wire; try done; rewrite Hb;
      vm_compute; reflexivity.
  - exact urljoin_replaces_base_path.
  - exact urljoin_rooted.
  - exact urljoin_other_scheme.
  - exact urljoin_no_path.
Qed.

(* =================================================================== *)
(** ** Construction *)
(* =================================================================== *)

(** X1: the constructor returns a reference that was not in use; on the
    new instance the properties read back the arguments, [timeout] 60 and
    [verify] [True] when left out, and the default dict when [headers] is
    left out; no dict and no other instance is touched. *)
Theorem init_then_getters s b h t v p :
  exists self,
    fst (init b h t v p s) = Ret self /\
    objs s !! self = None /\
    base_url self (snd (init b h t v p s))
    = (Ret b, snd (init b h t v p s)) /\
    headers self (snd (init b h t v p s))
    = (Ret (default (default_headers s) h), snd (init b h t v p s)) /\
    timeout self (snd (init b h t v p s))
    = (Ret (default 60%Z t), snd (init b h t v p s)) /\
    verify self (snd (init b h t v p s))
    = (Ret (default (VerifyBool true) v), snd (init b h t v p s)) /\
    dicts (snd (init b h t v p s)) = dicts s /\
    forall j, j <> self -> objs (snd (init b h t v p s)) !! j = objs s !! j.
Proof.
  exists (fresh (dom (objs s))). unfold init. simpl.
  split; [done|]. split; [apply fresh_obj_not_allocated|].
  unfold base_url, headers, timeout, verify, getattr. simpl.
  rewrite lookup_insert_eq. simpl. repeat split; try done.
  intros j Hj. by rewrite lookup_insert_ne.
Qed.

Lemma init_session s b h t v p :
  session_of (snd (init b h t v p s)) (fresh (dom (objs s)))
  = Some {| s_auth := AuthIdentity; s_proxies := default ∅ p |}.
Proof.
  unfold session_of, init. simpl. rewrite lookup_insert_eq. simpl.
  destruct p as [p|]; simpl; [|done].
  case_bool_decide as Hp; simpl; [by rewrite Hp|].
  by rewrite (right_id_L ∅ (∪)).
Qed.

(** X2: with [proxies] left out or empty the session of the new instance
    keeps the (empty) proxies of a new [requests.Session]; otherwise it
    holds exactly the proxies given. Its auth hook is the identity. The
    first request of the new instance goes through that session and
    carries the constructor's headers, timeout and verify. *)
Theorem init_proxies_then_request s b h t v p hd path kwargs url :
  dicts s !! default (default_headers s) h = Some hd ->
  UrlLib.urljoin check_bracketed_host nfkc b path true = Ret url ->
  exists self,
    fst (init b h t v p s) = Ret self /\
    session_of (snd (init b h t v p s)) self
    = Some {| s_auth := AuthIdentity; s_proxies := default ∅ p |} /\
    fst (raw_get self path kwargs (snd (init b h t v p s)))
    = wrapped
        (fst (send {| s_auth := AuthIdentity; s_proxies := default ∅ p |}
                {| req_method := GET; req_url := url; req_params := kwargs;
                   req_data := None; req_headers := hd;
                   req_timeout := default 60%Z t;
                   req_verify := default (VerifyBool true) v |}
                (net s))).
Proof.
  intros Hd Hurl. exists (fresh (dom (objs s))).
  split; [done|]. split; [apply init_session|].
  pose proof (init_session s b h t v p) as Hs.
  unfold session_of in Hs.
  destruct (objs (snd (init b h t v p s)) !! fresh (dom (objs s)))
    as [o|] eqn:Ho; [|done].
  simpl in Hs. injection Hs as Hs.
  assert (Hfields : _base_url o = b /\ _headers o = default (default_headers s) h
                    /\ _timeout o = default 60%Z t
                    /\ _verify o = default (VerifyBool true) v).
  { unfold init in Ho. simpl in Ho. rewrite lookup_insert_eq in Ho.
    injection Ho as <-. done. }
  destruct Hfields as (Hb & Hh & Ht & Hv).
  assert (Hd' : dicts (snd (init b h t v p s)) !! _headers o = Some hd).
  { rewrite Hh. done. }
  rewrite (raw_get_eq _ _ _ _ _ _ Ho Hd'), Hb, Hurl. simpl.
  unfold relay, request_of, wrapped. rewrite Hs, Ht, Hv. simpl.
  by destruct (fst (send _ _ _)) as [r|e|]; [|destruct (exc_is_Exception e)|].
Qed.

Lemma session_of_setattr s j upd self :
  (forall o, _s (upd o) = _s o) ->
  session_of (snd (setattr j upd s)) self = session_of s self.
Proof.
  intros Hupd. unfold setattr.
  destruct (objs s !! j) as [oj|] eqn:Hoj; simpl; [|done].
  unfold session_of. simpl.
  destruct (decide (j = self)) as [->|Hne].
  - rewrite lookup_insert_eq, Hoj. simpl. by rewrite Hupd.
  - by rewrite lookup_insert_ne.
Qed.

Lemma session_of_keeps_store {A} (m : M A) s self :
  keeps_store m -> session_of (snd (m s)) self = session_of s self.
Proof.
  intros Hm. specialize (Hm s). unfold store in Hm.
  injection Hm as _ Hob _. unfold session_of. by rewrite Hob.
Qed.

(** A call leaves the session of [self] as it is, or [self] is the
    instance the call has just constructed. *)
Lemma session_of_exec s c self :
  session_of (exec c s) self = session_of s self \/
  (session_of s self = None /\
   exists p, session_of (exec c s) self
             = Some {| s_auth := AuthIdentity; s_proxies := p |}).
Proof.
  destruct c; simpl.
  - (* NewDict *) by left.
  - (* Init *)
    destruct (decide (self = fresh (dom (objs s)))) as [->|Hne].
    + right. split.
      * unfold session_of. by rewrite fresh_obj_not_allocated.
      * eexists. apply init_session.
    + left. unfold init, session_of. simpl. by rewrite lookup_insert_ne.
  - left. unfold base_url. by rewrite snd_getattr.
  - left. by apply session_of_setattr.
  - left. unfold timeout. by rewrite snd_getattr.
  - left. by apply session_of_setattr.
  - left. unfold verify. by rewrite snd_getattr.
  - left. by apply session_of_setattr.
  - left. unfold headers. by rewrite snd_getattr.
  - left. by apply session_of_setattr.
  - left. by rewrite snd_param_headers.
  - (* CleanHeaders *)
    left. unfold clean_headers, set_headers, bind, new_dict. simpl.
    by rewrite session_of_setattr.
  - left. by rewrite snd_exist_param_headers.
  - (* AddParamHeaders *)
    left. unfold_ops. destruct (objs s !! self0) as [oj|]; simpl; [|done].
    by destruct (dicts s !! _headers oj).
  - (* DelParamHeaders *)
    left. unfold_ops. destruct (objs s !! self0) as [oj|]; simpl; [|done].
    by destruct (dicts s !! _headers oj).
  - left. apply session_of_keeps_store, raw_get_store.
  - left. apply session_of_keeps_store, raw_post_store.
  - left. apply session_of_keeps_store, raw_put_store.
  - left. apply session_of_keeps_store, raw_delete_store.
Qed.

(** X3: no call changes the session of an existing instance, and in every
    reachable state the session of every instance has the identity as its
    auth hook. *)
Theorem session_is_kept :
  (forall s c self sess,
      session_of s self = Some sess ->
      session_of (exec c s) self = Some sess) /\
  (forall s self sess,
      reachable s -> session_of s self = Some sess ->
      s_auth sess = AuthIdentity).
Proof.
  split.
  - intros s c self sess Hs.
    destruct (session_of_exec s c self) as [->|[Hnone _]]; congruence.
  - intros s self sess Hr. revert self sess.
    induction Hr as [n|s c Hr IH Hok]; intros self sess Hs.
    + unfold session_of in Hs. simpl in Hs. by rewrite lookup_empty in Hs.
    + destruct (session_of_exec s c self) as [Heq|[_ [p Hnew]]].
      * rewrite Heq in Hs. by apply (IH self).
      * rewrite Hnew in Hs. by injection Hs as <-.
Qed.

(* =================================================================== *)
(** ** Verb methods: when the URL cannot be joined, and what escapes *)
(* =================================================================== *)

Lemma rov_bind {A B} (m : outcome A) (k : A -> outcome B) :
  raises_only_ValueError m -> (forall a, raises_only_ValueError (k a)) ->
  raises_only_ValueError (obind m k).
Proof. intros Hm Hk. destruct m as [a|e|]; simpl in *; [apply Hk|done|done]. Qed.

Lemma rov_raise {A} msg : raises_only_ValueError (@Raise A (ValueError msg)).
Proof. by exists msg. Qed.

Lemma checknetloc_rov n : raises_only_ValueError (UrlLib.checknetloc nfkc n).
Proof.
  unfold UrlLib.checknetloc.
  repeat match goal with
         | |- context [if ?c then _ else _] => destruct c
         end; simpl; try done; by eexists.
Qed.

Lemma check_bracketed_netloc_rov n :
  raises_only_ValueError (UrlLib.check_bracketed_netloc check_bracketed_host n).
Proof.
  unfold UrlLib.check_bracketed_netloc.
  destruct (PyStr.partition "[" _) as [[before have] bracketed].
  apply rov_bind.
  - destruct have.
    + destruct (PyStr.nonempty before); [apply rov_raise|].
      destruct (PyStr.partition "]" bracketed) as [[hn ?] port].
      destruct (_ && _); [apply rov_raise|done].
    + by destruct (PyStr.partition ":" _) as [[hn ?] ?].
  - intros hn. destruct (check_bracketed_host hn); [apply rov_raise|done].
Qed.

Lemma urlsplit_rov url sch af :
  raises_only_ValueError
    (UrlLib.urlsplit check_bracketed_host nfkc url sch af).
Proof.
  unfold UrlLib.urlsplit.
  match goal with
  | |- context [let '(a, b) := ?x in _] => destruct x as [sch' url']
  end.
  apply rov_bind.
  - destruct (String.eqb _ _); [|done].
    destruct (UrlLib.splitnetloc url' 2) as [nl rest].
    destruct (_ || _); [apply rov_raise|].
    apply rov_bind; [|done].
    destruct (_ && _); [apply check_bracketed_netloc_rov|done].
  - intros [nl rest].
    destruct (if af && _ then _ else _) as [u1 fr].
    destruct (if PyStr.contains "?" u1 then _ else _) as [u2 q].
    apply rov_bind; [apply checknetloc_rov|done].
Qed.

Lemma urlparse_rov url sch af :
  raises_only_ValueError
    (UrlLib.urlparse check_bracketed_host nfkc url sch af).
Proof.
  unfold UrlLib.urlparse. apply rov_bind; [apply urlsplit_rov|].
  intros [sc nl u q f]. by destruct (if _ && _ then _ else _).
Qed.

(** [urljoin] returns a string or raises [ValueError]. *)
Lemma urljoin_rov base url af :
  raises_only_ValueError
    (UrlLib.urljoin check_bracketed_host nfkc base url af).
Proof.
  unfold UrlLib.urljoin.
  destruct (negb (PyStr.nonempty base)); [done|].
  destruct (negb (PyStr.nonempty url)); [done|].
  apply rov_bind; [apply urlparse_rov|]. intros [bs bn bp bpa bq bf].
  apply rov_bind; [apply urlparse_rov|]. intros [us un up upa uq uf].
  repeat match goal with
         | |- context [if ?c then Ret _ else _] => destruct c; [done|]
         end.
  done.
Qed.

Lemma verbs_send_intro s self o hd path kwargs data odata url :
  instance_at s self o hd ->
  UrlLib.urljoin check_bracketed_host nfkc (_base_url o) path true = Ret url ->
  verbs_send s self path kwargs data odata o hd url.
Proof.
  intros Hi Hurl.
  destruct (verbs_relayed_once s self o hd path kwargs data odata url
              Hi Hurl) as ([? _] & [? _] & [? _] & [? _]).
  done.
Qed.

(** X4: when [urljoin] raises (a [ValueError]: the base URL or the path
    has a malformed host), every verb method raises the connection error
    around it and the session is not called: no request is sent, the
    state is what it was. *)
Theorem unjoinable_url_is_wrapped s self o hd path kwargs data odata e :
  instance_at s self o hd ->
  UrlLib.urljoin check_bracketed_host nfkc (_base_url o) path true = Raise e ->
  raw_get self path kwargs s = (Raise (connect_error e), s) /\
  raw_post self path data kwargs s = (Raise (connect_error e), s) /\
  raw_put self path data kwargs s = (Raise (connect_error e), s) /\
  raw_delete self path odata kwargs s = (Raise (connect_error e), s).
Proof.
  intros [Ho Hd] Hurl.
  pose proof (urljoin_rov (_base_url o) path true) as Hrov.
  rewrite Hurl in Hrov. destruct Hrov as [msg ->].
  rewrite (raw_get_eq _ _ _ _ _ _ Ho Hd), (raw_post_eq _ _ _ _ _ _ _ Ho Hd),
    (raw_put_eq _ _ _ _ _ _ _ Ho Hd), (raw_delete_eq _ _ _ _ _ _ _ Ho Hd).
  rewrite Hurl. done.
Qed.

Lemma try_raises_wrapped {A} (body : M A) s e' :
  fst (try_except_Exception body (fun e => raise (connect_error e)) s)
  = Raise e' ->
  exc_is_Exception e' = true ->
  exists e, e' = connect_error e.
Proof.
  unfold try_except_Exception, raise.
  destruct (body s) as [[a|e|] s1]; simpl; try done.
  destruct (exc_is_Exception e) eqn:He; simpl.
  - intros [= <-] _. by exists e.
  - intros [= <-] He'. congruence.
Qed.

(** X5: whatever the state and the arguments, an exception deriving from
    [Exception] that leaves a verb method is the connection error the
    method builds; no other leaves it. *)
Theorem only_connect_errors_escape s self path data odata kwargs e' :
  exc_is_Exception e' = true ->
  (fst (raw_get self path kwargs s) = Raise e' ->
   exists e, e' = connect_error e) /\
  (fst (raw_post self path data kwargs s) = Raise e' ->
   exists e, e' = connect_error e) /\
  (fst (raw_put self path data kwargs s) = Raise e' ->
   exists e, e' = connect_error e) /\
  (fst (raw_delete self path odata kwargs s) = Raise e' ->
   exists e, e' = connect_error e).
Proof.
  intros He'. repeat split; intros Hr; by eapply try_raises_wrapped.
Qed.

(** X6: an exception of the transport that does not derive from
    [Exception] leaves every verb method as it came, unwrapped. *)
Theorem base_exception_passes s self o hd path kwargs data odata url e :
  instance_at s self o hd ->
  UrlLib.urljoin check_bracketed_host nfkc (_base_url o) path true = Ret url ->
  exc_is_Exception e = false ->
  (fst (send (_s o) (request_of o hd GET url kwargs None) (net s)) = Raise e ->
   fst (raw_get self path kwargs s) = Raise e) /\
  (fst (send (_s o) (request_of o hd POST url kwargs (Some data)) (net s))
   = Raise e ->
   fst (raw_post self path data kwargs s) = Raise e) /\
  (fst (send (_s o) (request_of o hd PUT url kwargs (Some data)) (net s))
   = Raise e ->
   fst (raw_put self path data kwargs s) = Raise e) /\
  (fst (send (_s o) (request_of o hd DELETE url kwargs
                       (Some (delete_data odata))) (net s)) = Raise e ->
   fst (raw_delete self path odata kwargs s) = Raise e).
Proof.
  intros [Ho Hd] Hurl He.
  rewrite (raw_get_eq _ _ _ _ _ _ Ho Hd), (raw_post_eq _ _ _ _ _ _ _ Ho Hd),
    (raw_put_eq _ _ _ _ _ _ _ Ho Hd), (raw_delete_eq _ _ _ _ _ _ _ Ho Hd).
  rewrite Hurl. simpl. unfold relay.
  repeat split; intros Hs; by rewrite Hs, He.
Qed.

Lemma urljoin_empty_path base :
  UrlLib.urljoin check_bracketed_host nfkc base "" true = Ret base.
Proof. unfold UrlLib.urljoin. by destruct base. Qed.

Lemma urljoin_empty_base url :
  UrlLib.urljoin check_bracketed_host nfkc "" url true = Ret url.
Proof. done. Qed.

(** X7: with the empty path every verb method sends its request to the
    base URL exactly as it is stored, and with an empty base URL to the
    path exactly as it is given: nothing is parsed, nothing can fail
    before the request. *)
Theorem empty_path_or_base s self o hd path kwargs data odata :
  instance_at s self o hd ->
  verbs_send s self "" kwargs data odata o hd (_base_url o) /\
  (_base_url o = "" -> verbs_send s self path kwargs data odata o hd path).
Proof.
  intros Hi. split.
  - apply verbs_send_intro; [done|]. apply urljoin_empty_path.
  - intros Hb. apply verbs_send_intro; [done|]. rewrite Hb.
    apply urljoin_empty_base.
Qed.

(** X8: [raw_delete] called without [data], with [None], with an empty
    dict or with an empty string does one and the same thing: the body
    sent is the empty dict. A body that is truthy is sent as it is. *)
Theorem raw_delete_data_default :
  (forall s self path kwargs,
      raw_delete self path None kwargs s
      = raw_delete self path (Some (DataDict ∅)) kwargs s /\
      raw_delete self path (Some DataNone) kwargs s
      = raw_delete self path (Some (DataDict ∅)) kwargs s /\
      raw_delete self path (Some (DataStr "")) kwargs s
      = raw_delete self path (Some (DataDict ∅)) kwargs s) /\
  (forall s self o hd path kwargs d url,
      instance_at s self o hd ->
      UrlLib.urljoin check_bracketed_host nfkc (_base_url o) path true
      = Ret url ->
      wire (snd (raw_delete self path None kwargs s))
      = wire s ++ [request_of o hd DELETE url kwargs (Some (DataDict ∅))] /\
      (truthy d = true ->
       wire (snd (raw_delete self path (Some d) kwargs s))
       = wire s ++ [request_of o hd DELETE url kwargs (Some d)])).
Proof.
  split.
  - intros s self path kwargs. unfold raw_delete. simpl.
    by rewrite (bool_decide_eq_true_2 (∅ = ∅)).
  - intros s self o hd path kwargs d url Hi Hurl.
    destruct (verbs_send_intro s self o hd path kwargs DataNone None url
                Hi Hurl) as (_ & _ & _ & Hnone).
    destruct (verbs_send_intro s self o hd path kwargs DataNone (Some d) url
                Hi Hurl) as (_ & _ & _ & Hd).
    split; [exact Hnone|].
    intros Ht. rewrite Hd. unfold delete_data. simpl. by rewrite Ht.
Qed.

(* =================================================================== *)
(** ** How the operations compose *)
(* =================================================================== *)

(** X9: a request carries the header mapping as the header operations
    have left it: with the header just added, without the header just
    deleted, with no header at all after [clean_headers]. *)
Theorem header_ops_then_request s self o d key value path kwargs data odata url :
  instance_at s self o d ->
  UrlLib.urljoin check_bracketed_host nfkc (_base_url o) path true = Ret url ->
  verbs_send (snd (add_param_headers self key value s)) self path kwargs
    data odata o (<[key := value]> d) url /\
  verbs_send (snd (del_param_headers self key s)) self path kwargs
    data odata o (delete key d) url /\
  verbs_send (snd (clean_headers self s)) self path kwargs
    data odata o ∅ url.
Proof.
  intros Hi Hurl. pose proof Hi as [Ho Hd]. split; [|split].
  - rewrite (add_param_headers_eq _ _ _ _ _ _ Ho Hd). simpl.
    apply verbs_send_intro; [|done]. by apply (instance_after_dict_write _ _ _ d).
  - rewrite (del_param_headers_eq _ _ _ _ _ Ho Hd). simpl.
    apply verbs_send_intro; [|done]. by apply (instance_after_dict_write _ _ _ d).
  - apply (verbs_send_intro _ _ (with_headers (fresh (dom (dicts s))) o));
      [by apply instance_after_clean|done].
Qed.

Lemma instance_after_setattr s self o d upd :
  instance_at s self o d ->
  _headers (upd o) = _headers o ->
  instance_at (snd (setattr self upd s)) self (upd o) d.
Proof.
  intros [Ho Hd] Hh. rewrite (setattr_eq _ _ _ _ Ho). split; simpl.
  - by rewrite lookup_insert_eq.
  - by rewrite Hh.
Qed.

(** X10: a value given to a setter is the one the next request uses: the
    new base URL is what the path is joined to, the new timeout and
    verify are sent with the request, the content of the new header
    mapping is sent as its headers. *)
Theorem setters_then_request s self o d path kwargs data odata :
  instance_at s self o d ->
  (forall value url,
      UrlLib.urljoin check_bracketed_host nfkc value path true = Ret url ->
      verbs_send (snd (set_base_url self value s)) self path kwargs
        data odata o d url) /\
  (forall value url,
      UrlLib.urljoin check_bracketed_host nfkc (_base_url o) path true
      = Ret url ->
      verbs_send (snd (set_timeout self value s)) self path kwargs
        data odata (with_timeout value o) d url) /\
  (forall value url,
      UrlLib.urljoin check_bracketed_host nfkc (_base_url o) path true
      = Ret url ->
      verbs_send (snd (set_verify self value s)) self path kwargs
        data odata (with_verify value o) d url) /\
  (forall value d' url,
      dicts s !! value = Some d' ->
      UrlLib.urljoin check_bracketed_host nfkc (_base_url o) path true
      = Ret url ->
      verbs_send (snd (set_headers self value s)) self path kwargs
        data odata o d' url).
Proof.
  intros Hi. pose proof Hi as [Ho Hd]. split; [|split; [|split]].
  - intros value url Hurl.
    apply (verbs_send_intro _ _ (with_base_url value o)); [|done].
    by apply instance_after_setattr.
  - intros value url Hurl. apply verbs_send_intro; [|done].
    by apply instance_after_setattr.
  - intros value url Hurl. apply verbs_send_intro; [|done].
    by apply instance_after_setattr.
  - intros value d' url Hd' Hurl.
    apply (verbs_send_intro _ _ (with_headers value o)); [|done].
    unfold set_headers. rewrite (setattr_eq _ _ _ _ Ho). split; simpl.
    + by rewrite lookup_insert_eq.
    + done.
Qed.

(** X11: two instances whose header mappings are one dict object see
    each other's additions; two whose header mappings are different dict
    objects never do: adding or deleting through one changes no answer of
    [param_headers] on the other. *)
Theorem headers_shared_or_separate s a b oa ob da db :
  instance_at s a oa da -> instance_at s b ob db ->
  (_headers oa = _headers ob ->
   forall key value,
     fst (param_headers b key (snd (add_param_headers a key value s)))
     = Ret value) /\
  (_headers oa <> _headers ob ->
   forall key value k,
     fst (param_headers b k (snd (add_param_headers a key value s)))
     = fst (param_headers b k s) /\
     fst (param_headers b k (snd (del_param_headers a key s)))
     = fst (param_headers b k s)).
Proof.
  intros [Hoa Hda] [Hob Hdb]. split.
  - intros Heq key value.
    rewrite (add_param_headers_eq _ _ _ _ _ _ Hoa Hda).
    rewrite (param_headers_eq _ b ob (<[key := value]> da)); simpl.
    + by rewrite lookup_insert_eq.
    + done.
    + by rewrite <- Heq, lookup_insert_eq.
  - intros Hne key value k.
    rewrite (add_param_headers_eq _ _ _ _ _ _ Hoa Hda).
    rewrite (del_param_headers_eq _ _ _ _ _ Hoa Hda).
    rewrite (param_headers_eq _ b ob db _ Hob Hdb).
    rewrite !(param_headers_eq _ b ob db); simpl; try done;
      by rewrite lookup_insert_ne.
Qed.

(** X12: after [clean_headers] the header mapping of the instance is a
    dict no other instance refers to, and not the default dict of the
    constructor; the other instances answer [param_headers] as before. *)
Theorem clean_headers_unshares s a oa :
  headers_valid s -> objs s !! a = Some oa ->
  (forall b ob,
      b <> a -> objs (snd (clean_headers a s)) !! b = Some ob ->
      headers_ref (snd (clean_headers a s)) a <> Some (_headers ob)) /\
  headers_ref (snd (clean_headers a s)) a
  <> Some (default_headers (snd (clean_headers a s))) /\
  (forall b key,
      b <> a ->
      fst (param_headers b key (snd (clean_headers a s)))
      = fst (param_headers b key s)).
Proof.
  intros [Hdef Hobj] Hoa. rewrite (clean_headers_eq _ _ _ Hoa).
  pose proof (fresh_dict_not_allocated s) as Hf.
  unfold headers_ref. simpl. rewrite lookup_insert_eq. simpl.
  split; [|split].
  - intros b ob Hb Hob. rewrite lookup_insert_ne in Hob by done.
    intros [= Heq]. destruct (Hobj b ob Hob) as [x Hx].
    rewrite <- Heq in Hx. congruence.
  - intros [= Heq]. destruct Hdef as [x Hx]. rewrite <- Heq in Hx. congruence.
  - intros b key Hb. unfold_ops. simpl.
    rewrite lookup_insert_ne by done.
    destruct (objs s !! b) as [ob|] eqn:Hob; simpl; [|done].
    rewrite lookup_insert_ne; [by destruct (dicts s !! _headers ob)|].
    intros Heq. destruct (Hobj b ob Hob) as [x Hx].
    rewrite <- Heq in Hx. congruence.
Qed.

(** X14: on one instance, a second [add_param_headers] of a key replaces
    the first; deleting a key just added is deleting it; deleting twice
    is deleting once; additions to different keys commute; and adding
    then deleting a key that was absent gives back the mapping. *)
Theorem add_del_algebra s self o d k v v' k2 v2 :
  instance_at s self o d ->
  snd (add_param_headers self k v' (snd (add_param_headers self k v s)))
  = snd (add_param_headers self k v' s) /\
  snd (del_param_headers self k (snd (add_param_headers self k v s)))
  = snd (del_param_headers self k s) /\
  snd (del_param_headers self k (snd (del_param_headers self k s)))
  = snd (del_param_headers self k s) /\
  (k <> k2 ->
   snd (add_param_headers self k2 v2 (snd (add_param_headers self k v s)))
   = snd (add_param_headers self k v (snd (add_param_headers self k2 v2 s)))) /\
  (d !! k = None ->
   headers_of (snd (del_param_headers self k
                      (snd (add_param_headers self k v s)))) self
   = Some d).
Proof.
  intros Hi. pose proof Hi as [Ho Hd].
  assert (Hw : forall d1,
             instance_at (with_dicts (insert (_headers o) d1) s) self o d1).
  { intros d1. by apply (instance_after_dict_write _ _ _ d). }
  assert (Hadd : forall d1 key value,
             snd (add_param_headers self key value
                    (with_dicts (insert (_headers o) d1) s))
             = with_dicts (insert (_headers o) (<[key := value]> d1)) s).
  { intros d1 key value. destruct (Hw d1) as [Ho1 Hd1].
    rewrite (add_param_headers_eq _ _ _ _ _ _ Ho1 Hd1).
    unfold with_dicts. simpl. by rewrite insert_insert_eq. }
  assert (Hdel : forall d1 key,
             snd (del_param_headers self key
                    (with_dicts (insert (_headers o) d1) s))
             = with_dicts (insert (_headers o) (delete key d1)) s).
  { intros d1 key. destruct (Hw d1) as [Ho1 Hd1].
    rewrite (del_param_headers_eq _ _ _ _ _ Ho1 Hd1).
    unfold with_dicts. simpl. by rewrite insert_insert_eq. }
  rewrite !(add_param_headers_eq _ _ _ _ _ _ Ho Hd).
  rewrite !(del_param_headers_eq _ _ _ _ _ Ho Hd). simpl.
  rewrite !Hadd, !Hdel.
  split; [by rewrite insert_insert_eq|].
  split; [by rewrite delete_insert_eq|].
  split; [by rewrite delete_delete_eq|].
  split.
  - intros Hk. by rewrite insert_insert_ne.
  - intros Hk. rewrite delete_insert_eq, (delete_id d k Hk).
    by apply (headers_of_instance _ _ o).
Qed.

(** X15: in a reachable state, on an instance that exists, the header
    operations and the setters return normally whatever the key: none of
    them raises, and the two reads leave the state as it is. *)
Theorem header_ops_return s self key value :
  reachable s -> is_Some (objs s !! self) ->
  (exists v, param_headers self key s = (Ret v, s)) /\
  (exists b, exist_param_headers self key s = (Ret b, s)) /\
  fst (add_param_headers self key value s) = Ret tt /\
  fst (del_param_headers self key s) = Ret tt /\
  fst (clean_headers self s) = Ret tt /\
  (forall b, fst (set_base_url self b s) = Ret tt) /\
  (forall t, fst (set_timeout self t s) = Ret tt) /\
  (forall v, fst (set_verify self v s) = Ret tt) /\
  (forall h, fst (set_headers self h s) = Ret tt).
Proof.
  intros Hr [o Ho]. destruct (reachable_headers_valid s Hr) as [_ Hobj].
  destruct (Hobj self o Ho) as [d Hd].
  split; [eexists; by apply (param_headers_eq _ _ o d)|].
  split; [eexists; by apply (exist_param_headers_eq _ _ o d)|].
  rewrite (add_param_headers_eq _ _ _ _ _ _ Ho Hd).
  rewrite (del_param_headers_eq _ _ _ _ _ Ho Hd).
  rewrite (clean_headers_eq _ _ _ Ho).
  unfold set_base_url, set_timeout, set_verify, set_headers.
  repeat split; intros; by rewrite (setattr_eq _ _ _ _ Ho).
Qed.

(* =================================================================== *)
(** ** Only the verb methods reach the session *)
(* =================================================================== *)

Lemma reads_getattr {A} self (field : ConnectionManager -> A) :
  reads (getattr self field).
Proof. intros s. apply snd_getattr. Qed.

Lemma reads_lift {A} (o : outcome A) : reads (lift o).
Proof. done. Qed.

Lemma samo_bind_reads {A B} (m : M A) (k : A -> M B) :
  reads m -> (forall a, sends_at_most_one (k a)) ->
  sends_at_most_one (bind m k).
Proof.
  intros Hm Hk s. unfold bind. specialize (Hm s).
  destruct (m s) as [[a|e|] s1]; simpl in *; subst s1.
  - apply Hk.
  - by left.
  - by left.
Qed.

Lemma samo_try {A} (body : M A) :
  sends_at_most_one body ->
  sends_at_most_one
    (try_except_Exception body (fun e => raise (connect_error e))).
Proof.
  intros Hb s. unfold try_except_Exception, raise. specialize (Hb s).
  destruct (body s) as [[a|e|] s1]; simpl in *; try done.
  by destruct (exc_is_Exception e).
Qed.

Lemma samo_session_request sess method url params data h t v :
  sends_at_most_one (session_request sess method url params data h t v).
Proof.
  intros s. unfold session_request, bind, dict_read.
  destruct (dicts s !! h) as [hd|]; simpl; [|by left].
  right. destruct (send _ _ _) as [r n]. simpl. by eexists.
Qed.

Ltac samo_tac :=
  apply samo_try;
  repeat (apply samo_bind_reads;
          [first [apply reads_getattr | apply reads_lift]|intro]);
  apply samo_session_request.

Lemma samo_raw_get self path kwargs :
  sends_at_most_one (raw_get self path kwargs).
Proof. unfold raw_get, base_url, headers, timeout, verify. samo_tac. Qed.

Lemma samo_raw_post self path data kwargs :
  sends_at_most_one (raw_post self path data kwargs).
Proof. unfold raw_post, base_url, headers, timeout, verify. samo_tac. Qed.

Lemma samo_raw_put self path data kwargs :
  sends_at_most_one (raw_put self path data kwargs).
Proof. unfold raw_put, base_url, headers, timeout, verify. samo_tac. Qed.

Lemma samo_raw_delete self path data kwargs :
  sends_at_most_one (raw_delete self path data kwargs).
Proof. unfold raw_delete, base_url, headers, timeout, verify. samo_tac. Qed.

Lemma wire_net_setattr s j upd :
  wire (snd (setattr j upd s)) = wire s /\ net (snd (setattr j upd s)) = net s.
Proof. unfold setattr. by destruct (objs s !! j). Qed.

Lemma exec_not_verb c s :
  is_verb_call c = false ->
  wire (exec c s) = wire s /\ net (exec c s) = net s.
Proof.
  destruct c; simpl; intros Hc; try discriminate Hc.
  - done.
  - done.
  - unfold base_url. by rewrite snd_getattr.
  - apply wire_net_setattr.
  - unfold timeout. by rewrite snd_getattr.
  - apply wire_net_setattr.
  - unfold verify. by rewrite snd_getattr.
  - apply wire_net_setattr.
  - unfold headers. by rewrite snd_getattr.
  - apply wire_net_setattr.
  - by rewrite snd_param_headers.
  - unfold clean_headers, set_headers, bind, new_dict. simpl.
    apply (wire_net_setattr (with_dicts _ s)).
  - by rewrite snd_exist_param_headers.
  - unfold_ops. destruct (objs s !! self) as [oj|]; simpl; [|done].
    by destruct (dicts s !! _headers oj).
  - unfold_ops. destruct (objs s !! self) as [oj|]; simpl; [|done].
    by destruct (dicts s !! _headers oj).
Qed.

Lemma exec_wire_step c s :
  wire (exec c s) = wire s \/ exists req, wire (exec c s) = wire s ++ [req].
Proof.
  destruct (is_verb_call c) eqn:Hc.
  - destruct c; try discriminate Hc; simpl.
    + destruct (samo_raw_get self path kwargs s) as [[? _]|?]; eauto.
    + destruct (samo_raw_post self path data kwargs s) as [[? _]|?]; eauto.
    + destruct (samo_raw_put self path data kwargs s) as [[? _]|?]; eauto.
    + destruct (samo_raw_delete self path data kwargs s) as [[? _]|?]; eauto.
  - left. by apply exec_not_verb.
Qed.

(** X13: the constructor, the properties (read or written) and the five
    header operations send no request and leave the network as it is; a
    verb method sends at most one request; so over any sequence of these
    calls the wire only grows at its end, by no more requests than there
    are verb calls. ([__del__], which closes the session, is not among
    the calls of [call].) *)
Theorem only_verbs_reach_session :
  (forall c s,
      is_verb_call c = false ->
      wire (exec c s) = wire s /\ net (exec c s) = net s) /\
  (forall c s,
      wire (exec c s) = wire s \/
      exists req, wire (exec c s) = wire s ++ [req]) /\
  (forall cs s,
      exists more,
        wire (exec_all cs s) = wire s ++ more /\
        length more <= length (List.filter is_verb_call cs)).
Proof.
  split; [exact exec_not_verb|]. split; [exact exec_wire_step|].
  induction cs as [|c cs IH]; intros s; simpl.
  - exists []. split; [by rewrite app_nil_r|done].
  - destruct (IH (exec c s)) as (more & Hw & Hlen).
    destruct (is_verb_call c) eqn:Hc.
    + destruct (exec_wire_step c s) as [Heq|[req Heq]].
      * exists more. rewrite Hw, Heq. split; [done|]. simpl. lia.
      * exists (req :: more). rewrite Hw, Heq, <- app_assoc.
        split; [done|]. simpl. lia.
    + destruct (exec_not_verb c s Hc) as [Heq _].
      exists more. by rewrite Hw, Heq.
Qed.

(* =================================================================== *)
(** ** [urljoin]: dot segments *)
(* =================================================================== *)







Local Opaque PyStr.in_list.


Local Transparent PyStr.in_list.


(* =================================================================== *)
(** ** One call after another *)
(* =================================================================== *)

Lemma fst_relay o hd method url kwargs data s :
  fst (relay o hd method url kwargs data s)
  = wrapped (fst (send (_s o) (request_of o hd method url kwargs data) (net s))).
Proof.
  unfold relay, wrapped. destruct (fst (send _ _ _)) as [r|e|]; try done.
  by destruct (exc_is_Exception e).
Qed.

Lemma instance_keeps_store {A} (m : M A) s self o d :
  keeps_store m -> instance_at s self o d -> instance_at (snd (m s)) self o d.
Proof.
  intros Hm [Ho Hd]. specialize (Hm s). unfold store in Hm.
  injection Hm as Hdi Hob _. unfold instance_at. by rewrite Hdi, Hob.
Qed.

(** X17: a verb method keeps nothing from one call to the next but what
    the network keeps: whatever the first call gave (a response or an
    error), the second sends its own request after the first one, built
    from the same configuration, and answers what the session answers on
    the network as the first call left it. *)
Theorem consecutive_requests s self o hd p1 p2 kw1 kw2 data u1 u2 :
  instance_at s self o hd ->
  UrlLib.urljoin check_bracketed_host nfkc (_base_url o) p1 true = Ret u1 ->
  UrlLib.urljoin check_bracketed_host nfkc (_base_url o) p2 true = Ret u2 ->
  wire (snd (raw_post self p2 data kw2 (snd (raw_get self p1 kw1 s))))
  = wire s ++ [request_of o hd GET u1 kw1 None;
               request_of o hd POST u2 kw2 (Some data)] /\
  fst (raw_post self p2 data kw2 (snd (raw_get self p1 kw1 s)))
  = wrapped
      (fst (send (_s o) (request_of o hd POST u2 kw2 (Some data))
              (snd (send (_s o) (request_of o hd GET u1 kw1 None) (net s))))) /\
  instance_at (snd (raw_post self p2 data kw2 (snd (raw_get self p1 kw1 s))))
    self o hd.
Proof.
  intros Hi Hu1 Hu2.
  destruct (verbs_relayed_once s self o hd p1 kw1 data None u1 Hi Hu1)
    as ((Hw1 & Hn1 & _) & _).
  pose proof (instance_keeps_store _ s self o hd
                (raw_get_store self p1 kw1) Hi) as Hi1.
  destruct (verbs_relayed_once _ self o hd p2 kw2 data None u2 Hi1 Hu2)
    as (_ & (Hw2 & _) & _).
  split; [|split].
  - by rewrite Hw2, Hw1, <- app_assoc.
  - destruct Hi1 as [Ho1 Hd1].
    rewrite (raw_post_eq _ _ _ _ _ _ _ Ho1 Hd1), Hu2. simpl.
    by rewrite fst_relay, Hn1.
  - by apply instance_keeps_store; [apply raw_post_store|].
Qed.

End Model.

Arguments module_loaded {Net} n.
Arguments one_instance {Net} n.
Arguments instance_at {Net} s self o d.
Arguments headers_ref {Net} s self.
Arguments headers_of {Net} s self.
Arguments headers_valid {Net} s.
Arguments config {Net} s self.
Arguments store {Net} s.
Arguments dicts {Net} s.
Arguments objs {Net} s.
Arguments net {Net} s.
Arguments wire {Net} s.
Arguments init {Net} base_url headers timeout verify proxies s.
Arguments param_headers {Net} self key s.
Arguments exist_param_headers {Net} self key s.
Arguments add_param_headers {Net} self key value s.
Arguments del_param_headers {Net} self key s.
Arguments clean_headers {Net} self s.
Arguments set_base_url {Net} self value s.
Arguments set_timeout {Net} self value s.
Arguments set_verify {Net} self value s.
Arguments set_headers {Net} self value s.
Arguments raw_get {Net} send check_bracketed_host nfkc self path kwargs s.
Arguments raw_post {Net} send check_bracketed_host nfkc self path data kwargs s.
Arguments raw_put {Net} send check_bracketed_host nfkc self path data kwargs s.
Arguments raw_delete {Net} send check_bracketed_host nfkc self path data kwargs s.
Arguments exec {Net} send check_bracketed_host nfkc c s.
Arguments exec_all {Net} send check_bracketed_host nfkc cs s.
Arguments undisturbed {Net} send check_bracketed_host nfkc self key s cs.
Arguments reachable {Net} send check_bracketed_host nfkc s.
Arguments relayed_once {Net} send s sess req res.
Arguments default_headers {Net} s.
Arguments session_of {Net} s self.
Arguments verbs_send {Net} send check_bracketed_host nfkc s self path kwargs
  data odata o hd url.
Arguments base_url {Net} self s.
Arguments timeout {Net} self s.
Arguments verify {Net} self s.
Arguments headers {Net} self s.

(* ===================================================================== *)
(** ** The properties at work on a scripted network *)
(* ===================================================================== *)

(** C6 at work: deleting a key that was never present. *)
Lemma del_param_headers_removes_witness :
  instance_at (one_instance ([] : Demo.Net)) 1 the_instance ∅ /\
  fst (del_param_headers 1 "X-Token" (one_instance ([] : Demo.Net))) = Ret tt /\
  fst (param_headers 1 "X-Token"
         (snd (del_param_headers 1 "X-Token" (one_instance ([] : Demo.Net)))))
  = Ret PyNone.
Proof.
  assert (Hi : instance_at (one_instance ([] : Demo.Net)) 1 the_instance ∅)
    by (split; vm_compute; reflexivity).
  split; [exact Hi|].
  destruct (del_param_headers_removes Demo.Net _ 1 the_instance ∅ "X-Token" Hi)
    as (H1 & H2 & _).
  split; [exact H1 | exact H2].
Defined.

(** C3 at work: a header added to the first instance survives a request,
    writes to other keys, a setter, the construction of a second instance
    and, once that instance has a dict of its own, a write to the same key
    there. *)
Lemma added_header_persists_witness :
  let cs := [RawGet 1 "/foo" ∅;
             AddParamHeaders 1 "Accept" (PyStr "*/*");
             DelParamHeaders 1 "Accept";
             SetTimeout 1 5;
             Init "http://other/" None None None None;
             CleanHeaders 2;
             AddParamHeaders 2 "X-Token" (PyStr "zzz")] in
  let s1 := snd (add_param_headers 1 "X-Token" (PyStr "abc")
                   (one_instance ([] : Demo.Net))) in
  instance_at (one_instance ([] : Demo.Net)) 1 the_instance ∅ /\
  undisturbed Demo.send Demo.check_bracketed_host Demo.nfkc 1 "X-Token" s1 cs /\
  fst (param_headers 1 "X-Token"
         (exec_all Demo.send Demo.check_bracketed_host Demo.nfkc cs s1))
  = Ret (PyStr "abc").
Proof.
  intros cs s1.
  assert (Hi : instance_at (one_instance ([] : Demo.Net)) 1 the_instance ∅)
    by (split; vm_compute; reflexivity).
  assert (Hu : undisturbed Demo.send Demo.check_bracketed_host Demo.nfkc
                 1 "X-Token" s1 cs).
  { vm_compute. repeat split; try tauto; intros H; try discriminate H;
    destruct H as [H1 H2]; discriminate. }
  split; [exact Hi|]. split; [exact Hu|].
  exact (proj2 (proj2 (added_header_persists Demo.Net Demo.send
                         Demo.check_bracketed_host Demo.nfkc _ 1 the_instance ∅
                         "X-Token" (PyStr "abc") cs Hi Hu))).
Defined.

(** C7 at work. *)
Lemma clean_headers_empties_witness :
  let s1 := snd (add_param_headers 1 "X-Token" (PyStr "abc")
                   (one_instance ([] : Demo.Net))) in
  objs s1 !! 1%positive = Some the_instance /\
  fst (exist_param_headers 1 "X-Token" s1) = Ret true /\
  fst (clean_headers 1 s1) = Ret tt /\
  headers_of (snd (clean_headers 1 s1)) 1 = Some ∅ /\
  fst (exist_param_headers 1 "X-Token" (snd (clean_headers 1 s1))) = Ret false.
Proof.
  intros s1.
  assert (Ho : objs s1 !! 1%positive = Some the_instance)
    by (vm_compute; reflexivity).
  split; [exact Ho|]. split; [vm_compute; reflexivity|].
  destruct (clean_headers_empties Demo.Net s1 1 the_instance Ho)
    as (H1 & H2 & H3).
  split; [exact H1|]. split; [exact H2|exact (H3 "X-Token")].
Defined.

(** C8 at work. *)
Lemma exist_iff_param_not_None_witness :
  let s1 := snd (add_param_headers 1 "X-Token" (PyStr "abc")
                   (one_instance ([] : Demo.Net))) in
  instance_at s1 1 the_instance {["X-Token" := PyStr "abc"]} /\
  exists v b,
    param_headers 1 "X-Token" s1 = (Ret v, s1) /\
    exist_param_headers 1 "X-Token" s1 = (Ret b, s1) /\
    (b = true <-> v <> PyNone).
Proof.
  intros s1.
  assert (Hi : instance_at s1 1 the_instance {["X-Token" := PyStr "abc"]})
    by (split; vm_compute; reflexivity).
  split; [exact Hi|].
  exact (exist_iff_param_not_None Demo.Net s1 1 the_instance _ "X-Token" Hi).
Defined.

(** C10 at work. *)
Lemma None_header_reads_as_missing_witness :
  let s := one_instance ([] : Demo.Net) in
  instance_at s 1 the_instance ∅ /\
  (exists d1, headers_of (snd (add_param_headers 1 "X-Token" PyNone s)) 1
              = Some d1 /\ d1 !! "X-Token" = Some PyNone) /\
  fst (param_headers 1 "X-Token" (snd (add_param_headers 1 "X-Token" PyNone s)))
  = Ret PyNone /\
  fst (exist_param_headers 1 "X-Token"
         (snd (add_param_headers 1 "X-Token" PyNone s)))
  = Ret false.
Proof.
  intros s.
  assert (Hi : instance_at s 1 the_instance ∅)
    by (split; vm_compute; reflexivity).
  split; [exact Hi|].
  destruct (None_header_reads_as_missing Demo.Net s 1 the_instance ∅
              "X-Token" Hi) as (H1 & _ & H3 & H4 & _).
  split; [exact H1|]. split; [exact H3|exact H4].
Defined.

(** C9 at work. *)
Lemma setters_and_requests_frame_witness :
  let s := one_instance ([] : Demo.Net) in
  instance_at s 1 the_instance ∅ /\
  config (snd (set_timeout 1 5 s)) 1
  = Some ("http://host/api/", 1%positive, ∅, 5%Z, VerifyBool true) /\
  config (snd (raw_get Demo.send Demo.check_bracketed_host Demo.nfkc
                 1 "/foo" ∅ s)) 1
  = config s 1.
Proof.
  intros s.
  assert (Hi : instance_at s 1 the_instance ∅)
    by (split; vm_compute; reflexivity).
  split; [exact Hi|].
  destruct (setters_and_requests_frame Demo.Net Demo.send
              Demo.check_bracketed_host Demo.nfkc s 1 the_instance ∅ Hi)
    as (_ & Ht & _ & _ & Hg & _).
  split; [exact (proj2 (Ht 5%Z))|exact (proj2 (Hg "/foo" ∅))].
Defined.

(** C5 at work. *)
Lemma headers_valid_and_how_mutated_witness :
  let s := exec Demo.send Demo.check_bracketed_host Demo.nfkc
             (Init "http://host/api/" None None None None)
             (module_loaded ([] : Demo.Net)) in
  headers_valid s /\
  headers_ref (snd (add_param_headers 1 "X-Token" (PyStr "abc") s)) 1
  = Some 1%positive /\
  exists l, headers_ref (snd (clean_headers 1 s)) 1 = Some l /\ l <> 1%positive.
Proof.
  intros s.
  destruct (headers_valid_and_how_mutated Demo.Net Demo.send
              Demo.check_bracketed_host Demo.nfkc) as (Hv & Hadd & _ & Hclean).
  assert (Hi : instance_at s 1 the_instance ∅)
    by (split; vm_compute; reflexivity).
  split; [|split].
  - apply Hv. apply reachable_call; [apply reachable_loaded|exact I].
  - exact (proj1 (Hadd s 1%positive the_instance ∅ "X-Token" (PyStr "abc") Hi)).
  - destruct (Hclean s 1%positive the_instance ∅ Hi) as (l & H1 & H2 & _).
    exists l. split; [exact H1|exact H2].
Defined.

(** C2 at work: an unreachable host, and a [404] answer. *)
Lemma transport_failure_is_wrapped_witness :
  let s := one_instance ([Raise Demo.unreachable] : Demo.Net) in
  let s' := one_instance ([Ret Demo.not_found] : Demo.Net) in
  instance_at s 1 the_instance ∅ /\
  UrlLib.urljoin Demo.check_bracketed_host Demo.nfkc
    (_base_url the_instance) "/foo" true = Ret "http://host/foo" /\
  fst (raw_get Demo.send Demo.check_bracketed_host Demo.nfkc 1 "/foo" ∅ s)
  = Raise {| exc_class := "Exception"; exc_is_Exception := true;
             exc_str := "Can't connect to server (Name or service not known)";
             exc_context := Some Demo.unreachable |} /\
  wire (snd (raw_get Demo.send Demo.check_bracketed_host Demo.nfkc
               1 "/foo" ∅ s))
  = [request_of the_instance ∅ GET "http://host/foo" ∅ None] /\
  fst (raw_get Demo.send Demo.check_bracketed_host Demo.nfkc 1 "/foo" ∅ s')
  = Ret Demo.not_found.
Proof.
  intros s s'.
  assert (Hi : instance_at s 1 the_instance ∅)
    by (split; vm_compute; reflexivity).
  assert (Hi' : instance_at s' 1 the_instance ∅)
    by (split; vm_compute; reflexivity).
  assert (Hu : UrlLib.urljoin Demo.check_bracketed_host Demo.nfkc
                 (_base_url the_instance) "/foo" true = Ret "http://host/foo")
    by (vm_compute; reflexivity).
  split; [exact Hi|]. split; [exact Hu|].
  destruct (transport_failure_is_wrapped Demo.Net Demo.send
              Demo.check_bracketed_host Demo.nfkc s 1 the_instance ∅ "/foo" ∅
              DataNone None "http://host/foo" Hi Hu)
    as ((Hw & _ & _ & Hraise) & _).
  destruct (transport_failure_is_wrapped Demo.Net Demo.send
              Demo.check_bracketed_host Demo.nfkc s' 1 the_instance ∅ "/foo" ∅
              DataNone None "http://host/foo" Hi' Hu)
    as ((_ & _ & Hret & _) & _).
  split; [|split].
  - apply (Hraise Demo.unreachable); reflexivity.
  - exact Hw.
  - apply Hret. reflexivity.
Defined.

Local Abbreviation demo_join :=
  (UrlLib.urljoin Demo.check_bracketed_host Demo.nfkc).
Local Abbreviation other_base := "http://host/other/page;p?q=1#top".

(** C1 at work: the request of a verb, the examples, and references
    that replace the path of the base or keep it. *)
Lemma target_url_is_urljoin_witness :
  let s := one_instance ([] : Demo.Net) in
  instance_at s 1 the_instance ∅ /\
  wire (snd (raw_post Demo.send Demo.check_bracketed_host Demo.nfkc
               1 "items/7" (DataStr "x=1") ∅ s))
  = [request_of the_instance ∅ POST "http://host/api/items/7" ∅
       (Some (DataStr "x=1"))] /\
  wire (snd (raw_get Demo.send Demo.check_bracketed_host Demo.nfkc
               1 "/foo" ∅ s))
  = [request_of the_instance ∅ GET "http://host/foo" ∅ None] /\
  demo_join "http://host/api/" "/v1/items" true
  = demo_join other_base "/v1/items" true /\
  demo_join "http://host/api/" "https://elsewhere/x" true
  = Ret "https://elsewhere/x" /\
  demo_join "http://host/api/" "http://other/x" true
  = demo_join other_base "http://other/x" true /\
  demo_join "http://host/api/" "//other/x" true
  = demo_join other_base "//other/x" true /\
  demo_join "http://host/api/" "http:/x" true
  = demo_join other_base "http:/x" true /\
  demo_join "http://host/api/" "///x" true
  = demo_join other_base "///x" true /\
  demo_join "http://host/api/" "//" true = Ret "http://host/api/".
Proof.
  intros s.
  destruct (target_url_is_urljoin Demo.Net Demo.send
              Demo.check_bracketed_host Demo.nfkc)
    as (Hany & Hex & Hgen & Hroot & Hsch & Hnopath).
  assert (Hi : instance_at s 1 the_instance ∅)
    by (split; vm_compute; reflexivity).
  split; [exact Hi|].
  split; [|split; [|split; [|split; [|split; [|split; [|split; [|split]]]]]]].
  - refine (proj1 (proj2 (Hany s 1%positive the_instance ∅ "items/7" ∅
                            (DataStr "x=1") None "http://host/api/items/7"
                            Hi _))).
    vm_compute; reflexivity.
  - exact (proj1 (Hex s 1%positive the_instance ∅ ∅ Hi eq_refl)).
  - eapply (Hroot "http://host/api/" other_base); vm_compute; reflexivity.
  - eapply (Hsch "http://host/api/" "https://elsewhere/x");
      try (vm_compute; reflexivity).
    vm_compute. discriminate.
  - eapply (Hgen "http://host/api/" other_base); vm_compute; reflexivity.
  - eapply (Hgen "http://host/api/" other_base); vm_compute; reflexivity.
  - eapply (Hgen "http://host/api/" other_base); vm_compute; reflexivity.
  - eapply (Hgen "http://host/api/" other_base); vm_compute; reflexivity.
  - refine (eq_trans
              (Hnopath "http://host/api/" "//"
                 (UrlLib.mk_parse "http" "host" "/api/" "" "" "")
                 (UrlLib.mk_parse "http" "" "" "" "" "")
                 eq_refl eq_refl _ _ eq_refl _ eq_refl eq_refl eq_refl) _);
      vm_compute; reflexivity.
Defined.

(** C1 as first stated fails: with base URL [http://host/api/],
    [raw_get("/foo")] goes to [http://host/foo], not to
    [http://host/api/foo]; and the base's path is kept by the reference
    [http:foo], which starts with a scheme, and by [//], which starts
    with [/]. *)
Lemma slash_foo_drops_api :
  let s := one_instance ([] : Demo.Net) in
  req_url <$> wire (snd (raw_get Demo.send Demo.check_bracketed_host Demo.nfkc
                           1 "/foo" ∅ s))
  = ["http://host/foo"] /\
  req_url <$> wire (snd (raw_get Demo.send Demo.check_bracketed_host Demo.nfkc
                           1 "/foo" ∅ s))
  <> ["http://host/api/foo"] /\
  UrlLib.urljoin Demo.check_bracketed_host Demo.nfkc
    "http://host/api/" "http:foo" true = Ret "http://host/api/foo" /\
  UrlLib.urljoin Demo.check_bracketed_host Demo.nfkc
    "http://host/api/" "//" true = Ret "http://host/api/".
Proof. vm_compute. repeat split; try reflexivity. discriminate. Qed.

(** C2 as first stated fails: a [KeyboardInterrupt] raised by the
    transport leaves [raw_get] as it came; it is not the connection
    error. *)
Lemma interrupt_is_not_wrapped :
  let e := {| exc_class := "KeyboardInterrupt"; exc_is_Exception := false;
              exc_str := "interrupted"; exc_context := None |} in
  let s := one_instance ([Raise e] : Demo.Net) in
  fst (raw_get Demo.send Demo.check_bracketed_host Demo.nfkc 1 "/foo" ∅ s)
  = Raise e /\
  fst (raw_get Demo.send Demo.check_bracketed_host Demo.nfkc 1 "/foo" ∅ s)
  <> Raise (connect_error e) /\
  wire (snd (raw_get Demo.send Demo.check_bracketed_host Demo.nfkc
               1 "/foo" ∅ s))
  = [request_of the_instance ∅ GET "http://host/foo" ∅ None].
Proof. vm_compute. repeat split; try reflexivity. discriminate. Qed.

(** C3 as first stated fails: the [headers] setter is none of
    [add_param_headers], [del_param_headers], [clean_headers], and after it
    [param_headers] no longer returns the value added. *)
Lemma headers_setter_loses_added_header :
  let s1 := snd (add_param_headers 1 "X-Token" (PyStr "abc")
                   (one_instance ([] : Demo.Net))) in
  let cs := [NewDict ∅; SetHeaders 1 2] in
  fst (param_headers 1 "X-Token" s1) = Ret (PyStr "abc") /\
  forallb (fun c => negb (overwrites_or_removes "X-Token" c)) cs = true /\
  fst (param_headers 1 "X-Token"
         (exec_all Demo.send Demo.check_bracketed_host Demo.nfkc cs s1))
  = Ret PyNone.
Proof. vm_compute. repeat split; reflexivity. Qed.

(** C5 as first stated fails: [clean_headers] does not empty the dict the
    instance used; it makes the instance use another dict object, and the
    previous one keeps its content. *)
Lemma clean_headers_rebinds :
  let s1 := snd (add_param_headers 1 "X-Token" (PyStr "abc")
                   (one_instance ([] : Demo.Net))) in
  let s2 := snd (clean_headers 1 s1) in
  headers_ref s1 1 = Some 1%positive /\
  headers_ref s2 1 = Some 2%positive /\
  dicts s2 !! 1%positive = Some {["X-Token" := PyStr "abc"]} /\
  dicts s2 !! 2%positive = Some ∅.
Proof. vm_compute. repeat split; reflexivity. Qed.

(* ===================================================================== *)
(** ** Further properties at work *)
(* ===================================================================== *)

(** X2 at work: a proxy given to the constructor, a timeout of 5, and the
    first request of the instance. *)
Lemma init_proxies_then_request_witness :
  let s := module_loaded ([Ret Demo.not_found] : Demo.Net) in
  let p := Some ({["http" := "http://proxy:8080"]} : gmap string string) in
  let s1 := snd (init "https://example.test" None (Some 5%Z) None p s) in
  dicts s !! 1%positive = Some ∅ /\
  UrlLib.urljoin Demo.check_bracketed_host Demo.nfkc
    "https://example.test" "/v1/items" true
  = Ret "https://example.test/v1/items" /\
  exists self,
    fst (init "https://example.test" None (Some 5%Z) None p s) = Ret self /\
    session_of s1 self
    = Some {| s_auth := AuthIdentity;
              s_proxies := {["http" := "http://proxy:8080"]} |} /\
    fst (raw_get Demo.send Demo.check_bracketed_host Demo.nfkc self
           "/v1/items" {["limit" := "10"]} s1)
    = Ret Demo.not_found.
Proof.
  intros s p s1.
  assert (Hd : dicts s !! default (default_headers s) None = Some ∅)
    by (vm_compute; reflexivity).
  assert (Hu : UrlLib.urljoin Demo.check_bracketed_host Demo.nfkc
                 "https://example.test" "/v1/items" true
               = Ret "https://example.test/v1/items")
    by (vm_compute; reflexivity).
  split; [exact Hd|]. split; [exact Hu|].
  destruct (init_proxies_then_request Demo.Net Demo.send
              Demo.check_bracketed_host Demo.nfkc s "https://example.test"
              None (Some 5%Z) None p ∅ "/v1/items" {["limit" := "10"]}
              "https://example.test/v1/items" Hd Hu)
    as (self & H1 & H2 & H3).
  exists self. split; [exact H1|]. split; [exact H2|exact H3].
Defined.

(** X3 at work. *)
Lemma session_is_kept_witness :
  let s := exec Demo.send Demo.check_bracketed_host Demo.nfkc
             (Init "http://host/api/" None None None None)
             (module_loaded ([] : Demo.Net)) in
  let sess := {| s_auth := AuthIdentity; s_proxies := ∅ |} in
  session_of s 1 = Some sess /\
  session_of (exec Demo.send Demo.check_bracketed_host Demo.nfkc
                (CleanHeaders 1) s) 1 = Some sess /\
  s_auth sess = AuthIdentity.
Proof.
  intros s sess.
  destruct (session_is_kept Demo.Net Demo.send Demo.check_bracketed_host
              Demo.nfkc) as [Hkeep Hauth].
  assert (Hs : session_of s 1 = Some sess) by (vm_compute; reflexivity).
  split; [exact Hs|]. split.
  - exact (Hkeep s (CleanHeaders 1) 1%positive sess Hs).
  - apply (Hauth s 1%positive sess); [|exact Hs].
    apply reachable_call; [apply reachable_loaded|exact I].
Defined.

(** X4 at work: a base URL whose host opens a bracket and never closes
    it. *)
Lemma unjoinable_url_is_wrapped_witness :
  let s := snd (init "http://[host/" None None None None
                  (module_loaded ([] : Demo.Net))) in
  let o := {| _base_url := "http://[host/"; _headers := 1%positive;
              _timeout := 60; _verify := VerifyBool true;
              _s := {| s_auth := AuthIdentity; s_proxies := ∅ |} |} in
  instance_at s 1 o ∅ /\
  UrlLib.urljoin Demo.check_bracketed_host Demo.nfkc "http://[host/" "/foo" true
  = Raise (ValueError "Invalid IPv6 URL") /\
  raw_get Demo.send Demo.check_bracketed_host Demo.nfkc 1 "/foo" ∅ s
  = (Raise {| exc_class := "Exception"; exc_is_Exception := true;
              exc_str := "Can't connect to server (Invalid IPv6 URL)";
              exc_context := Some (ValueError "Invalid IPv6 URL") |}, s).
Proof.
  intros s o.
  assert (Hi : instance_at s 1 o ∅) by (split; vm_compute; reflexivity).
  assert (Hu : UrlLib.urljoin Demo.check_bracketed_host Demo.nfkc
                 (_base_url o) "/foo" true
               = Raise (ValueError "Invalid IPv6 URL"))
    by (vm_compute; reflexivity).
  split; [exact Hi|]. split; [exact Hu|].
  exact (proj1 (unjoinable_url_is_wrapped Demo.Net Demo.send
                  Demo.check_bracketed_host Demo.nfkc s 1 o ∅ "/foo" ∅
                  DataNone None _ Hi Hu)).
Defined.

(** X5 at work. *)
Lemma only_connect_errors_escape_witness :
  let s := one_instance ([Raise Demo.unreachable] : Demo.Net) in
  let e' := connect_error Demo.unreachable in
  exc_is_Exception e' = true /\
  fst (raw_get Demo.send Demo.check_bracketed_host Demo.nfkc 1 "/foo" ∅ s)
  = Raise e' /\
  exists e, e' = connect_error e.
Proof.
  intros s e'.
  assert (He : exc_is_Exception e' = true) by reflexivity.
  assert (Hr : fst (raw_get Demo.send Demo.check_bracketed_host Demo.nfkc
                      1 "/foo" ∅ s) = Raise e')
    by (vm_compute; reflexivity).
  split; [exact He|]. split; [exact Hr|].
  exact (proj1 (only_connect_errors_escape Demo.Net Demo.send
                  Demo.check_bracketed_host Demo.nfkc s 1 "/foo" DataNone None
                  ∅ e' He) Hr).
Defined.

(** X6 at work: an interrupt during the request. *)
Lemma base_exception_passes_witness :
  let e := {| exc_class := "KeyboardInterrupt"; exc_is_Exception := false;
              exc_str := "interrupted"; exc_context := None |} in
  let s := one_instance ([Raise e] : Demo.Net) in
  instance_at s 1 the_instance ∅ /\
  exc_is_Exception e = false /\
  fst (raw_get Demo.send Demo.check_bracketed_host Demo.nfkc 1 "/foo" ∅ s)
  = Raise e.
Proof.
  intros e s.
  assert (Hi : instance_at s 1 the_instance ∅)
    by (split; vm_compute; reflexivity).
  assert (Hu : UrlLib.urljoin Demo.check_bracketed_host Demo.nfkc
                 (_base_url the_instance) "/foo" true = Ret "http://host/foo")
    by (vm_compute; reflexivity).
  split; [exact Hi|]. split; [reflexivity|].
  apply (proj1 (base_exception_passes Demo.Net Demo.send
                  Demo.check_bracketed_host Demo.nfkc s 1 the_instance ∅
                  "/foo" ∅ DataNone None "http://host/foo" e Hi Hu eq_refl)).
  reflexivity.
Defined.

(** X7 at work. *)
Lemma empty_path_or_base_witness :
  let s := one_instance ([] : Demo.Net) in
  instance_at s 1 the_instance ∅ /\
  verbs_send Demo.send Demo.check_bracketed_host Demo.nfkc s 1 "" ∅
    DataNone None the_instance ∅ "http://host/api/".
Proof.
  intros s.
  assert (Hi : instance_at s 1 the_instance ∅)
    by (split; vm_compute; reflexivity).
  split; [exact Hi|].
  exact (proj1 (empty_path_or_base Demo.Net Demo.send
                  Demo.check_bracketed_host Demo.nfkc s 1 the_instance ∅
                  "" ∅ DataNone None Hi)).
Defined.

(** X8 at work. *)
Lemma raw_delete_data_default_witness :
  let s := one_instance ([] : Demo.Net) in
  instance_at s 1 the_instance ∅ /\
  truthy (DataStr "x=1") = true /\
  wire (snd (raw_delete Demo.send Demo.check_bracketed_host Demo.nfkc
               1 "items/7" None ∅ s))
  = [request_of the_instance ∅ DELETE "http://host/api/items/7" ∅
       (Some (DataDict ∅))] /\
  wire (snd (raw_delete Demo.send Demo.check_bracketed_host Demo.nfkc
               1 "items/7" (Some (DataStr "x=1")) ∅ s))
  = [request_of the_instance ∅ DELETE "http://host/api/items/7" ∅
       (Some (DataStr "x=1"))].
Proof.
  intros s.
  assert (Hi : instance_at s 1 the_instance ∅)
    by (split; vm_compute; reflexivity).
  assert (Hu : UrlLib.urljoin Demo.check_bracketed_host Demo.nfkc
                 (_base_url the_instance) "items/7" true
               = Ret "http://host/api/items/7")
    by (vm_compute; reflexivity).
  split; [exact Hi|]. split; [reflexivity|].
  destruct (proj2 (raw_delete_data_default Demo.Net Demo.send
                     Demo.check_bracketed_host Demo.nfkc)
              s 1%positive the_instance ∅ "items/7" ∅ (DataStr "x=1")
              "http://host/api/items/7" Hi Hu) as [H1 H2].
  split; [exact H1|exact (H2 eq_refl)].
Defined.

(** X9 at work: the scenario of a token header followed by a request. *)
Lemma header_ops_then_request_witness :
  let s := one_instance ([] : Demo.Net) in
  instance_at s 1 the_instance ∅ /\
  wire (snd (raw_get Demo.send Demo.check_bracketed_host Demo.nfkc 1
               "/v1/items" {["limit" := "10"]}
               (snd (add_param_headers 1 "X-Token" (PyStr "abc") s))))
  = [request_of the_instance {["X-Token" := PyStr "abc"]} GET
       "http://host/v1/items" {["limit" := "10"]} None].
Proof.
  intros s.
  assert (Hi : instance_at s 1 the_instance ∅)
    by (split; vm_compute; reflexivity).
  assert (Hu : UrlLib.urljoin Demo.check_bracketed_host Demo.nfkc
                 (_base_url the_instance) "/v1/items" true
               = Ret "http://host/v1/items")
    by (vm_compute; reflexivity).
  split; [exact Hi|].
  exact (proj1 (proj1 (header_ops_then_request Demo.Net Demo.send
                         Demo.check_bracketed_host Demo.nfkc s 1 the_instance
                         ∅ "X-Token" (PyStr "abc") "/v1/items"
                         {["limit" := "10"]} DataNone None
                         "http://host/v1/items" Hi Hu))).
Defined.

(** X10 at work. *)
Lemma setters_then_request_witness :
  let s := one_instance ([] : Demo.Net) in
  instance_at s 1 the_instance ∅ /\
  wire (snd (raw_get Demo.send Demo.check_bracketed_host Demo.nfkc 1
               "/foo" ∅ (snd (set_timeout 1 5 s))))
  = [request_of (with_timeout 5 the_instance) ∅ GET "http://host/foo" ∅ None]
  /\
  wire (snd (raw_get Demo.send Demo.check_bracketed_host Demo.nfkc 1
               "/foo" ∅ (snd (set_base_url 1 "https://other/v2/" s))))
  = [request_of the_instance ∅ GET "https://other/foo" ∅ None].
Proof.
  intros s.
  assert (Hi : instance_at s 1 the_instance ∅)
    by (split; vm_compute; reflexivity).
  destruct (setters_then_request Demo.Net Demo.send Demo.check_bracketed_host
              Demo.nfkc s 1 the_instance ∅ "/foo" ∅ DataNone None Hi)
    as (Hb & Ht & _).
  split; [exact Hi|]. split.
  - refine (proj1 (Ht 5%Z "http://host/foo" _)). vm_compute; reflexivity.
  - refine (proj1 (Hb "https://other/v2/" "https://other/foo" _)).
    vm_compute; reflexivity.
Defined.

(** X11 at work: the first two instances share the default dict, the
    third was given a dict of its own. *)
Lemma headers_shared_or_separate_witness :
  let s := exec_all Demo.send Demo.check_bracketed_host Demo.nfkc
             [Init "http://host/api/" None None None None;
              Init "http://host/api/" None None None None;
              NewDict ∅;
              Init "http://host/api/" (Some 2%positive) None None None]
             (module_loaded ([] : Demo.Net)) in
  let own := with_headers 2 the_instance in
  instance_at s 1 the_instance ∅ /\
  instance_at s 2 the_instance ∅ /\
  instance_at s 3 own ∅ /\
  fst (param_headers 2 "X-Token"
         (snd (add_param_headers 1 "X-Token" (PyStr "abc") s)))
  = Ret (PyStr "abc") /\
  fst (param_headers 3 "X-Token"
         (snd (add_param_headers 1 "X-Token" (PyStr "abc") s)))
  = fst (param_headers 3 "X-Token" s).
Proof.
  intros s own.
  assert (H1 : instance_at s 1 the_instance ∅)
    by (split; vm_compute; reflexivity).
  assert (H2 : instance_at s 2 the_instance ∅)
    by (split; vm_compute; reflexivity).
  assert (H3 : instance_at s 3 own ∅)
    by (split; vm_compute; reflexivity).
  split; [exact H1|]. split; [exact H2|]. split; [exact H3|]. split.
  - exact (proj1 (headers_shared_or_separate Demo.Net s 1 2 the_instance
                    the_instance ∅ ∅ H1 H2) eq_refl "X-Token" (PyStr "abc")).
  - refine (proj1 (proj2 (headers_shared_or_separate Demo.Net s 1 3
                            the_instance own ∅ ∅ H1 H3) _
                     "X-Token" (PyStr "abc") "X-Token")).
    vm_compute. discriminate.
Defined.

(** X12 at work: of two instances that share the default dict, the one
    that calls [clean_headers] leaves the other alone. *)
Lemma clean_headers_unshares_witness :
  let s := exec Demo.send Demo.check_bracketed_host Demo.nfkc
             (Init "http://host/api/" None None None None)
             (exec Demo.send Demo.check_bracketed_host Demo.nfkc
                (Init "http://host/api/" None None None None)
                (module_loaded ([] : Demo.Net))) in
  headers_valid s /\
  objs s !! 1%positive = Some the_instance /\
  headers_ref (snd (clean_headers 1 s)) 1 <> Some 1%positive /\
  headers_ref (snd (clean_headers 1 s)) 2 = Some 1%positive.
Proof.
  intros s.
  assert (Hv : headers_valid s).
  { apply (reachable_headers_valid Demo.Net Demo.send
             Demo.check_bracketed_host Demo.nfkc).
    apply reachable_call; [|exact I].
    apply reachable_call; [apply reachable_loaded|exact I]. }
  assert (Ho : objs s !! 1%positive = Some the_instance)
    by (vm_compute; reflexivity).
  split; [exact Hv|]. split; [exact Ho|].
  destruct (clean_headers_unshares Demo.Net s 1 the_instance Hv Ho)
    as (_ & Hdef & _).
  split; [exact Hdef|vm_compute; reflexivity].
Defined.

(** X13 at work: five calls, two of them verb calls, two requests. *)
Lemma only_verbs_reach_session_witness :
  let s := one_instance ([] : Demo.Net) in
  let cs := [AddParamHeaders 1 "X-Token" (PyStr "abc");
             RawGet 1 "/foo" ∅;
             SetTimeout 1 5;
             CleanHeaders 1;
             RawDelete 1 "/foo" None ∅] in
  is_verb_call (AddParamHeaders 1 "X-Token" (PyStr "abc")) = false /\
  wire (exec Demo.send Demo.check_bracketed_host Demo.nfkc
          (AddParamHeaders 1 "X-Token" (PyStr "abc")) s) = wire s /\
  exists more,
    wire (exec_all Demo.send Demo.check_bracketed_host Demo.nfkc cs s)
    = wire s ++ more /\
    length more <= 2.
Proof.
  intros s cs.
  destruct (only_verbs_reach_session Demo.Net Demo.send
              Demo.check_bracketed_host Demo.nfkc) as (Hnot & _ & Hall).
  split; [reflexivity|]. split.
  - exact (proj1 (Hnot (AddParamHeaders 1 "X-Token" (PyStr "abc")) s eq_refl)).
  - exact (Hall cs s).
Defined.

(** X14 at work. *)
Lemma add_del_algebra_witness :
  let s := one_instance ([] : Demo.Net) in
  instance_at s 1 the_instance ∅ /\
  snd (add_param_headers 1 "A" (PyStr "2")
         (snd (add_param_headers 1 "A" (PyStr "1") s)))
  = snd (add_param_headers 1 "A" (PyStr "2") s) /\
  headers_of (snd (del_param_headers 1 "A"
                     (snd (add_param_headers 1 "A" (PyStr "1") s)))) 1
  = Some ∅.
Proof.
  intros s.
  assert (Hi : instance_at s 1 the_instance ∅)
    by (split; vm_compute; reflexivity).
  destruct (add_del_algebra Demo.Net s 1 the_instance ∅ "A" (PyStr "1")
              (PyStr "2") "B" (PyStr "3") Hi) as (H1 & _ & _ & _ & H5).
  split; [exact Hi|]. split; [exact H1|]. apply H5. reflexivity.
Defined.

(** X15 at work. *)
Lemma header_ops_return_witness :
  let s := exec Demo.send Demo.check_bracketed_host Demo.nfkc
             (Init "http://host/api/" None None None None)
             (module_loaded ([] : Demo.Net)) in
  is_Some (objs s !! 1%positive) /\
  (exists v, param_headers 1 "missing" s = (Ret v, s)) /\
  fst (del_param_headers 1 "missing" s) = Ret tt.
Proof.
  intros s.
  assert (Hr : reachable Demo.send Demo.check_bracketed_host Demo.nfkc s)
    by (apply reachable_call; [apply reachable_loaded|exact I]).
  assert (Ho : is_Some (objs s !! 1%positive))
    by (exists the_instance; vm_compute; reflexivity).
  destruct (header_ops_return Demo.Net Demo.send Demo.check_bracketed_host
              Demo.nfkc s 1 "missing" PyNone Hr Ho) as (H1 & _ & _ & H4 & _).
  split; [exact Ho|]. split; [exact H1|exact H4].
Defined.


(** X17 at work: a request that fails, then one that is answered. *)
Lemma consecutive_requests_witness :
  let s := one_instance ([Raise Demo.unreachable; Ret Demo.not_found]
                         : Demo.Net) in
  let s1 := snd (raw_get Demo.send Demo.check_bracketed_host Demo.nfkc
                   1 "/foo" ∅ s) in
  instance_at s 1 the_instance ∅ /\
  fst (raw_get Demo.send Demo.check_bracketed_host Demo.nfkc 1 "/foo" ∅ s)
  = Raise (connect_error Demo.unreachable) /\
  wire (snd (raw_post Demo.send Demo.check_bracketed_host Demo.nfkc
               1 "items" (DataStr "x=1") ∅ s1))
  = [request_of the_instance ∅ GET "http://host/foo" ∅ None;
     request_of the_instance ∅ POST "http://host/api/items" ∅
       (Some (DataStr "x=1"))] /\
  fst (raw_post Demo.send Demo.check_bracketed_host Demo.nfkc
         1 "items" (DataStr "x=1") ∅ s1)
  = Ret Demo.not_found.
Proof.
  intros s s1.
  assert (Hi : instance_at s 1 the_instance ∅)
    by (split; vm_compute; reflexivity).
  assert (Hu1 : UrlLib.urljoin Demo.check_bracketed_host Demo.nfkc
                  (_base_url the_instance) "/foo" true = Ret "http://host/foo")
    by (vm_compute; reflexivity).
  assert (Hu2 : UrlLib.urljoin Demo.check_bracketed_host Demo.nfkc
                  (_base_url the_instance) "items" true
                = Ret "http://host/api/items")
    by (vm_compute; reflexivity).
  destruct (consecutive_requests Demo.Net Demo.send Demo.check_bracketed_host
              Demo.nfkc s 1 the_instance ∅ "/foo" "items" ∅ ∅ (DataStr "x=1")
              "http://host/foo" "http://host/api/items" Hi Hu1 Hu2)
    as (Hw & Hr & _).
  split; [exact Hi|]. split; [vm_compute; reflexivity|].
  split; [exact Hw|exact Hr].
Defined.
